(** * Stocknews: the news proxy handler and its schema normalizer

    A shallow embedding of [api/stockanews.js] (the revision with the
    AbortController deadline, [handler] and [transformNewsData]) and of the
    mapping of its sibling revision ([transformSvelteKitData]), followed by
    the properties of the specification stated and settled on them.

    JavaScript values are embedded as a tree type [JsVal]; the few runtime
    operations the program relies on (truthiness, property reads, [trim],
    [split], [Date.prototype.toISOString]) are written out after
    ECMA-262. *)

From Stdlib Require Import ZArith List String Ascii Bool Lia DecimalString.
Import ListNotations.

Local Open Scope string_scope.
Local Open Scope Z_scope.

(* ================================================================= *)
(** ** JavaScript values *)

(** What [JSON.parse] yields, plus [undefined] (the result of reading a
    property that is not there).  A number is an integer-valued one, held
    as its value in [Z]: epoch seconds, counts and status codes are such.
    [JSON.parse] rounds an integer literal to the nearest double; the
    operations applied to numbers below (truthiness, the product by 1000
    compared with the largest time value, the formatting of a time value
    within that bound) give the same result on the integer and on its
    double.  A string is the sequence of its code units, one [ascii] each.
    An object lists its own properties in order, each name once. *)
#[local] Unset Elimination Schemes.

Inductive JsVal : Type :=
| JUndefined
| JNull
| JBool (b : bool)
| JNum (z : Z)
| JStr (s : string)
| JArr (elems : list JsVal)
| JObj (props : list (string * JsVal)).

#[local] Set Elimination Schemes.

(** Result of [ToNumber]: an integer-valued number or [NaN]. *)
Inductive Number : Type :=
| Fin (z : Z)
| NaN.

(** A thrown [Error] object, with the three properties the program reads. *)
Record Exn : Type := mkExn {
  name : string;
  message : string;
  stack : option string
}.

Module JS.

(** [ToBoolean]. *)
Definition ToBoolean (v : JsVal) : bool :=
  match v with
  | JUndefined | JNull => false
  | JBool b => b
  | JNum z => negb (z =? 0)
  | JStr s => negb (s =? "")%string
  | JArr _ | JObj _ => true
  end.

(** [a || b] and [a && b] on values (both operands already evaluated; the
    callers below only use them where evaluating [b] cannot throw). *)
Definition or (a b : JsVal) : JsVal := if ToBoolean a then a else b.
Definition and (a b : JsVal) : JsVal := if ToBoolean a then b else a.

Fixpoint lookup (k : string) (props : list (string * JsVal)) : JsVal :=
  match props with
  | [] => JUndefined
  | (k', v) :: rest => if (k =? k')%string then v else lookup k rest
  end.

Definition Number_toString (z : Z) : string :=
  NilZero.string_of_int (Z.to_int z).

(** [v.name] for a property name that is an identifier.  Arrays and strings
    have [length]; none of the names the program reads is defined on a
    prototype.  On [null] and [undefined] the read throws in JavaScript:
    every use below is guarded by a truthiness test or by [?.]. *)
Definition Get (v : JsVal) (k : string) : JsVal :=
  match v with
  | JObj props => lookup k props
  | JArr l => if (k =? "length")%string then JNum (Z.of_nat (List.length l))
              else JUndefined
  | JStr s => if (k =? "length")%string then JNum (Z.of_nat (String.length s))
              else JUndefined
  | _ => JUndefined
  end.

(** [v[i]] for an index [i]. *)
Definition GetIndex (v : JsVal) (i : nat) : JsVal :=
  match v with
  | JObj props => lookup (Number_toString (Z.of_nat i)) props
  | JArr l => nth i l JUndefined
  | JStr s => match String.get i s with
              | Some c => JStr (String c EmptyString)
              | None => JUndefined
              end
  | _ => JUndefined
  end.

(** Optional chaining: [v?.name] and [v?.[i]]. *)
Definition isNullish (v : JsVal) : bool :=
  match v with JUndefined | JNull => true | _ => false end.

Definition GetOpt (v : JsVal) (k : string) : JsVal :=
  if isNullish v then JUndefined else Get v k.

Definition GetIndexOpt (v : JsVal) (i : nat) : JsVal :=
  if isNullish v then JUndefined else GetIndex v i.

Definition isArray (v : JsVal) : bool :=
  match v with JArr _ => true | _ => false end.

Definition isString (v : JsVal) : bool :=
  match v with JStr _ => true | _ => false end.

(** The object [v] less its property [k]. *)
Definition without (k : string) (v : JsVal) : JsVal :=
  match v with
  | JObj ps => JObj (filter (fun p => negb (fst p =? k)%string) ps)
  | _ => v
  end.

(** *** Strings *)

(** White space and line terminators among the code units below 256. *)
Definition isWhiteSpace (c : ascii) : bool :=
  let n := nat_of_ascii c in
  ((9 <=? n) && (n <=? 13) || (n =? 32) || (n =? 160))%nat.

Fixpoint trimStart (s : string) : string :=
  match s with
  | EmptyString => EmptyString
  | String c r => if isWhiteSpace c then trimStart r else s
  end.

Fixpoint trimEnd (s : string) : string :=
  match s with
  | EmptyString => EmptyString
  | String c r =>
      match trimEnd r with
      | EmptyString => if isWhiteSpace c then EmptyString
                       else String c EmptyString
      | r' => String c r'
      end
  end.

Definition trim (s : string) : string := trimEnd (trimStart s).

Fixpoint allWhiteSpace (s : string) : bool :=
  match s with
  | EmptyString => true
  | String c r => isWhiteSpace c && allWhiteSpace r
  end.

(** [s.split(sep)] for a one-character separator: never empty. *)
Fixpoint split (sep : ascii) (s : string) : list string :=
  match s with
  | EmptyString => [EmptyString]
  | String c r =>
      if Ascii.eqb c sep then EmptyString :: split sep r
      else match split sep r with
           | seg :: segs => String c seg :: segs
           | [] => [String c EmptyString]
           end
  end.

(** [segs.pop()] on the result of a [split]. *)
Definition pop (segs : list string) : string := last segs EmptyString.

(** [s.substring(0, n)]. *)
Definition substring0 (n : nat) (s : string) : string := String.substring 0 n s.

(** [s.includes(sub)]. *)
Fixpoint includes (sub s : string) : bool :=
  String.prefix sub s ||
  match s with
  | EmptyString => false
  | String _ r => includes sub r
  end.

Fixpoint zeros (n : nat) : string :=
  match n with
  | O => EmptyString
  | S k => String "0" (zeros k)
  end.

(** [s.padStart(w, "0")]. *)
Definition padStart0 (w : nat) (s : string) : string :=
  zeros (w - String.length s) ++ s.

(** *** Time values and [toISOString] (ECMA-262, 21.4.1) *)

Definition msPerDay : Z := 86400000.
Definition msPerHour : Z := 3600000.
Definition msPerMinute : Z := 60000.
Definition msPerSecond : Z := 1000.

Definition Day (t : Z) : Z := t / msPerDay.
Definition TimeWithinDay (t : Z) : Z := t mod msPerDay.

Definition DaysInYear (y : Z) : Z :=
  if negb (y mod 4 =? 0) then 365
  else if negb (y mod 100 =? 0) then 366
  else if negb (y mod 400 =? 0) then 365
  else 366.

Definition DayFromYear (y : Z) : Z :=
  365 * (y - 1970) + (y - 1969) / 4 - (y - 1901) / 100 + (y - 1601) / 400.

(** The largest [y] with [DayFromYear y <= Day t]: an estimate from the mean
    year length, corrected by one (see [YearFromTime_spec]). *)
Definition YearFromTime (t : Z) : Z :=
  let d := Day t in
  let y := 1970 + (d * 400) / 146097 in
  if d <? DayFromYear y then y - 1
  else if DayFromYear (y + 1) <=? d then y + 1
  else y.

Definition InLeapYear (t : Z) : Z :=
  if DaysInYear (YearFromTime t) =? 366 then 1 else 0.

Definition DayWithinYear (t : Z) : Z := Day t - DayFromYear (YearFromTime t).

(** Month number, 0 for January. *)
Definition MonthFromTime (t : Z) : Z :=
  let d := DayWithinYear t in
  let l := InLeapYear t in
  if d <? 31 then 0
  else if d <? 59 + l then 1
  else if d <? 90 + l then 2
  else if d <? 120 + l then 3
  else if d <? 151 + l then 4
  else if d <? 181 + l then 5
  else if d <? 212 + l then 6
  else if d <? 243 + l then 7
  else if d <? 273 + l then 8
  else if d <? 304 + l then 9
  else if d <? 334 + l then 10
  else 11.

(** Day of the month, from 1. *)
Definition DateFromTime (t : Z) : Z :=
  let d := DayWithinYear t in
  let l := InLeapYear t in
  match MonthFromTime t with
  | 0 => d + 1
  | 1 => d - 30
  | 2 => d - 58 - l
  | 3 => d - 89 - l
  | 4 => d - 119 - l
  | 5 => d - 150 - l
  | 6 => d - 180 - l
  | 7 => d - 211 - l
  | 8 => d - 242 - l
  | 9 => d - 272 - l
  | 10 => d - 303 - l
  | _ => d - 333 - l
  end.

Definition HourFromTime (t : Z) : Z := (t / msPerHour) mod 24.
Definition MinFromTime (t : Z) : Z := (t / msPerMinute) mod 60.
Definition SecFromTime (t : Z) : Z := (t / msPerSecond) mod 60.
Definition msFromTime (t : Z) : Z := t mod msPerSecond.

Definition digits (w : nat) (z : Z) : string :=
  padStart0 w (Number_toString z).

(** Years 0 to 9999 on four digits, the others signed on six. *)
Definition isoYear (y : Z) : string :=
  if (0 <=? y) && (y <=? 9999) then digits 4 y
  else if y <? 0 then "-" ++ digits 6 (- y)
  else "+" ++ digits 6 y.

(** [new Date(t).toISOString()] for a valid time value [t]. *)
Definition toISOString (t : Z) : string :=
  isoYear (YearFromTime t) ++ "-" ++ digits 2 (MonthFromTime t + 1) ++ "-"
  ++ digits 2 (DateFromTime t) ++ "T" ++ digits 2 (HourFromTime t) ++ ":"
  ++ digits 2 (MinFromTime t) ++ ":" ++ digits 2 (SecFromTime t) ++ "."
  ++ digits 3 (msFromTime t) ++ "Z".

(** [TimeClip]: the time value of [new Date(n)], [None] for an invalid
    date. *)
Definition maxTime : Z := 8640000000000000.

Definition TimeClip (n : Number) : option Z :=
  match n with
  | NaN => None
  | Fin z => if Z.abs z <=? maxTime then Some z else None
  end.

(** [n * 1000]. *)
Definition times1000 (n : Number) : Number :=
  match n with
  | NaN => NaN
  | Fin z => Fin (z * 1000)
  end.

(** [JSON.stringify] followed by the client's parse, as [res.json] sends a
    value: a property whose value is [undefined] is left out, an
    [undefined] array element becomes [null]. *)
Fixpoint wire (v : JsVal) : JsVal :=
  match v with
  | JArr l =>
      JArr (map (fun x => match x with JUndefined => JNull | _ => wire x end) l)
  | JObj ps =>
      JObj ((fix props (ps : list (string * JsVal)) : list (string * JsVal) :=
               match ps with
               | [] => []
               | (k, x) :: rest =>
                   match x with
                   | JUndefined => props rest
                   | _ => (k, wire x) :: props rest
                   end
               end) ps)
  | _ => v
  end.

(** The double quote, as a string. *)
Definition quote : string := String "034" EmptyString.

(** Errors the engine raises.  The message texts are V8's; the program only
    copies them and tests them for emptiness.  Of the stack only the first
    line, [name: message], is given. *)
Definition engineError (nm msg : string) : Exn :=
  mkExn nm msg (Some (nm ++ ": " ++ msg)).

Definition TypeError (msg : string) : Exn := engineError "TypeError" msg.
Definition RangeError (msg : string) : Exn := engineError "RangeError" msg.

(** What an aborted [fetch] rejects with. *)
Definition AbortError : Exn :=
  mkExn "AbortError" "This operation was aborted"
        (Some "AbortError: This operation was aborted").

(** [Object.keys(v)]: throws on [null] and [undefined], lists the indices of
    an array or a string, and nothing for a number or a boolean. *)
Definition indices (n : nat) : list string :=
  map (fun i => Number_toString (Z.of_nat i)) (seq 0 n).

Definition Object_keys (v : JsVal) : Exn + list string :=
  match v with
  | JUndefined | JNull =>
      inl (TypeError "Cannot convert undefined or null to object")
  | JObj ps => inr (map fst ps)
  | JArr l => inr (indices (List.length l))
  | JStr s => inr (indices (String.length s))
  | JBool _ | JNum _ => inr []
  end.

End JS.

(* ================================================================= *)
(** ** Computations: the clock and exceptions *)

(** The program reads the wall clock ([Date.now()], [new Date()]) and
    throws.  A computation takes the number of clock readings made so far
    and returns a value or the exception thrown, with the new count. *)
Definition M (A : Type) : Type := nat -> (Exn + A) * nat.

Definition ret {A : Type} (a : A) : M A := fun k => (inr a, k).

Definition throw {A : Type} (e : Exn) : M A := fun k => (inl e, k).

Definition bind {A B : Type} (m : M A) (f : A -> M B) : M B :=
  fun k =>
    match m k with
    | (inr a, k') => f a k'
    | (inl e, k') => (inl e, k')
    end.

(** [try { m } catch (e) { h e }]. *)
Definition try_catch {A : Type} (m : M A) (h : Exn -> M A) : M A :=
  fun k =>
    match m k with
    | (inr a, k') => (inr a, k')
    | (inl e, k') => h e k'
    end.

Declare Scope js_scope.
Delimit Scope js_scope with js.
Notation "x <- m ;; f" := (bind m (fun x => f))
  (at level 61, m at next level, right associativity) : js_scope.

(** [xs.map(f)]: the callback runs on the elements in order and the first
    exception ends the loop. *)
Fixpoint mapM {A B : Type} (f : A -> M B) (xs : list A) : M (list B) :=
  match xs with
  | [] => ret []
  | x :: rest =>
      (y <- f x ;;
       ys <- mapM f rest ;;
       ret (y :: ys))%js
  end.

(** A computation that makes no reading: its result does not depend on the
    counter, which it leaves as it was. *)
Definition readingFree {A : Type} (m : M A) : Prop :=
  exists r, forall k, m k = (r, k).

(* ================================================================= *)
(** ** The upstream and the reply *)

Record Request : Type := mkRequest {
  method : string
}.

(** An upstream reply, as [fetch] resolves with it once the status line and
    the headers have arrived.  Its body is read afterwards, by
    [response.text()] or by [response.json()]: the read settles
    [body_after] milliseconds later ([None]: the body never arrives and the
    read stays pending).  [response.text()] yields [text], unless
    [text_error] tells the error it rejects with; [response.json()] yields
    [json], or rejects with the error given there (a [SyntaxError], or the
    failure of the transfer). *)
Record Response : Type := mkResponse {
  status : Z;
  content_type : option string;
  text : string;
  json : Exn + JsVal;
  text_error : option Exn;
  body_after : option Z
}.

Inductive Settled : Type :=
| Rejected (e : Exn)
| Resolved (r : Response).

(** What the outbound call does when nobody aborts it: it settles
    [settles_after] milliseconds after it was issued ([None]: never). *)
Record Upstream : Type := mkUpstream {
  settles_after : option Z;
  outcome : Settled
}.

(** One handled request: what is sent back, what is written to the console
    ([console.error] and [console.warn], in order), the URL fetched and
    whether [controller.abort()] ran. *)
Record Outcome : Type := mkOutcome {
  headers : list (string * string);
  code : Z;
  body : option JsVal;
  log : list (list JsVal);
  fetched : option string;
  aborted : bool
}.

(* ================================================================= *)
(** ** Sample payloads *)

Module Sample.

(** The upstream document, with [entries] as the article list of its second
    node. *)
Definition payload (entries : list JsVal) : JsVal :=
  JObj [("type", JStr "data");
        ("nodes", JArr [JNull;
                        JObj [("type", JStr "data");
                              ("data", JArr entries)]])].

Definition entry : JsVal :=
  JObj [("t", JStr "Title"); ("u", JStr "/news/abc-123");
        ("d", JNum 1700000000); ("s", JStr "Summary")].

Definition article : JsVal :=
  JObj [("id", JStr "abc-123");
        ("title", JStr "Title");
        ("summary", JStr "Summary");
        ("url", JStr "https://stockanalysis.com/news/abc-123");
        ("publishedAt", JStr "2023-11-14T22:13:20.000Z");
        ("source", JStr "StockAnalysis")].

(** What the normalizer returns on [payload [entry]] when the clock reads
    1700000000000. *)
Definition cleaned : JsVal :=
  JObj [("success", JBool true);
        ("count", JNum 1);
        ("lastUpdated", JStr "2023-11-14T22:13:20.000Z");
        ("articles", JArr [article])].

(** A reply with status [st] and content type [ct] whose body arrives 30 ms
    after its headers and parses to [v]. *)
Definition reply (st : Z) (ct : string) (v : JsVal) : Upstream :=
  mkUpstream (Some 120)
    (Resolved (mkResponse st (Some ct) "" (inr v) None (Some 30))).

Definition get : Request := mkRequest "GET".

(** A clock that advances by one millisecond per reading. *)
Definition clock (k : nat) : Z := 1700000000000 + Z.of_nat k.

(** Stand-ins for what is left to the engine, for inputs that do not reach
    it. *)
Definition noNumber (s : string) : Number := NaN.
Definition noPrimitive (v : JsVal) : option Number := None.
Definition noString (v : JsVal) : option string := None.
Definition noExponent (z : Z) : string := "".
Definition noJSON (v : JsVal) : string := "".

(** Random identifiers, all distinct. *)
Definition draw (k : nat) : string :=
  String "r" (JS.Number_toString (Z.of_nat k)).

End Sample.

(* ================================================================= *)
(** ** [api/stockanews.js], the revision with the 8 s deadline *)

Section Program.

Import JS.
Local Open Scope js_scope.

(** [ToNumber] on a string ([StringToNumber]) and on an array or object
    (through [ToPrimitive]; [None] when that throws a [TypeError]) are left
    to the engine. *)
Variable StringToNumber : string -> Number.
Variable ObjectToNumber : JsVal -> option Number.

(** The wall clock: its [k]-th reading, in milliseconds since the epoch. *)
Variable clock : nat -> Z.

(** [process.env.NODE_ENV]. *)
Variable NODE_ENV : option string.

Definition Date_now : M Z := fun k => (inr (clock k), S k).

Definition ToNumber (v : JsVal) : M Number :=
  match v with
  | JUndefined => ret NaN
  | JNull => ret (Fin 0)
  | JBool b => ret (Fin (if b then 1 else 0))
  | JNum z => ret (Fin z)
  | JStr s => ret (StringToNumber s)
  | JArr _ | JObj _ =>
      match ObjectToNumber v with
      | Some n => ret n
      | None => throw (TypeError "Cannot convert object to primitive value")
      end
  end.

Definition origin : string := "https://stockanalysis.com".

(** [data?.nodes?.[1]?.data] *)
Definition articlesNode (data : JsVal) : JsVal :=
  GetOpt (GetIndexOpt (GetOpt data "nodes") 1) "data".

(** [item => item && item.t && item.u], as [filter] reads it. *)
Definition keeps (item : JsVal) : bool :=
  if ToBoolean item then
    if ToBoolean (Get item "t") then ToBoolean (Get item "u") else false
  else false.

(** [item.u.split('/').pop() || Date.now().toString()] *)
Definition articleId (item : JsVal) : M string :=
  match Get item "u" with
  | JStr u =>
      let seg := pop (split "/" u) in
      if (seg =? "")%string then
        now <- Date_now ;; ret (Number_toString now)
      else ret seg
  | _ => throw (TypeError "item.u.split is not a function")
  end.

(** [item.t.trim()] *)
Definition articleTitle (item : JsVal) : M string :=
  match Get item "t" with
  | JStr t => ret (trim t)
  | _ => throw (TypeError "item.t.trim is not a function")
  end.

(** [(item.s || '').trim()] *)
Definition articleSummary (item : JsVal) : M string :=
  match JS.or (Get item "s") (JStr "") with
  | JStr s => ret (trim s)
  | _ => throw (TypeError ("(item.s || " ++ quote ++ quote
                          ++ ").trim is not a function"))
  end.

(** [`https://stockanalysis.com${item.u}`]; [item.u] is a string here, or
    [articleId] has thrown. *)
Definition articleUrl (item : JsVal) : string :=
  match Get item "u" with
  | JStr u => origin ++ u
  | _ => origin
  end.

(** [item.d ? new Date(item.d * 1000).toISOString() : null] *)
Definition articlePublishedAt (item : JsVal) : M JsVal :=
  let d := Get item "d" in
  if ToBoolean d then
    n <- ToNumber d ;;
    match TimeClip (times1000 n) with
    | Some t => ret (JStr (toISOString t))
    | None => throw (RangeError "Invalid time value")
    end
  else ret JNull.

(** The callback of [map]: the object literal, its properties evaluated in
    order. *)
Definition mapArticle (item : JsVal) : M JsVal :=
  id <- articleId item ;;
  title <- articleTitle item ;;
  summary <- articleSummary item ;;
  publishedAt <- articlePublishedAt item ;;
  ret (JObj [("id", JStr id);
             ("title", JStr title);
             ("summary", JStr summary);
             ("url", JStr (articleUrl item));
             ("publishedAt", publishedAt);
             ("source", JStr "StockAnalysis")]).

Definition transformNewsData (data : JsVal) : M JsVal :=
  try_catch
    (match articlesNode data with
     | JArr node =>
         articles <- mapM mapArticle (filter keeps node) ;;
         now <- Date_now ;;
         ret (JObj [("success", JBool true);
                    ("count", JNum (Z.of_nat (List.length articles)));
                    ("lastUpdated", JStr (toISOString now));
                    ("articles", JArr articles)])
     | _ =>
         ret (JObj [("error", JStr "Unexpected data structure");
                    ("hasNodes", JBool (ToBoolean (GetOpt data "nodes")));
                    ("nodeCount", GetOpt (GetOpt data "nodes") "length")])
     end)
    (fun err => ret (JObj [("error", JStr (message err))])).

(** Whether the identifier of a kept entry comes from its URL path (and not
    from the clock): the last segment of a string path is not empty.  On a
    path that is not a string [articleId] throws before any reading. *)
Definition idFromUrl (item : JsVal) : bool :=
  match Get item "u" with
  | JStr u => negb (pop (split "/" u) =? "")%string
  | _ => true
  end.

Definition idsFromUrls (data : JsVal) : bool :=
  match articlesNode data with
  | JArr node => forallb idFromUrl (filter keeps node)
  | _ => true
  end.

(** *** The handler *)

Definition corsHeaders : list (string * string) :=
  [("Access-Control-Allow-Origin", "*");
   ("Access-Control-Allow-Methods", "GET, OPTIONS");
   ("Access-Control-Allow-Headers", "Content-Type");
   ("Cache-Control", "s-maxage=300")].

(** The deadline armed with [setTimeout], in milliseconds. *)
Definition deadline : Z := 8000.

(** [await fetch(url, { signal })] against the timer: the call settles by
    itself before the deadline, or the timer runs [controller.abort()] and
    the call rejects with an [AbortError].  The second component tells
    whether the abort ran.  Once the call has settled the handler clears
    the timer: reading the body is not under the deadline. *)
Definition fetch (up : Upstream) : Settled * bool :=
  match settles_after up with
  | Some t => if t <? deadline then (outcome up, false)
              else (Rejected AbortError, true)
  | None => (Rejected AbortError, true)
  end.

(** [response.ok] *)
Definition ok (r : Response) : bool :=
  (200 <=? status r) && (status r <=? 299).

(** [response.headers.get('content-type') || ''] *)
Definition contentTypeOf (r : Response) : string :=
  match content_type r with
  | Some ct => ct
  | None => ""
  end.

(** [error.stack?.split('\n')[0]] *)
Definition stackHead (e : Exn) : JsVal :=
  match stack e with
  | Some s => JStr (hd EmptyString (split "010" s))
  | None => JUndefined
  end.

(** [process.env.NODE_ENV === 'development'] *)
Definition isDevelopment : bool :=
  match NODE_ENV with
  | Some env => (env =? "development")%string
  | None => false
  end.

(** The [catch] block of the handler. *)
Definition onError (url : string) (lg : list (list JsVal)) (ab : bool)
    (error : Exn) : Outcome :=
  if (name error =? "AbortError")%string then
    mkOutcome corsHeaders 504
      (Some (wire (JObj [("error", JStr "Upstream timeout")])))
      (lg ++ [[JStr "[TIMEOUT] Request exceeded 8s limit"]])
      (Some url) ab
  else
    mkOutcome corsHeaders 500
      (Some (wire (JObj [("error", JStr "Service unavailable");
                         ("debug",
                          if isDevelopment then JStr (message error)
                          else JUndefined)])))
      (lg ++ [[JStr "[CRITICAL ERROR]"; JStr (message error); stackHead error]])
      (Some url) ab.

(** The line logged for a blocked reply, once [response.text()] has
    yielded. *)
Definition blockedLine (r : Response) : list JsVal :=
  [JStr ("[BLOCKED] Status:" ++ Number_toString (status r) ++ " | CT:"
         ++ contentTypeOf r ++ " | Snippet:");
   JStr (substring0 200 (substring0 500 (text r)))].

(** The handler: the answer it sends, with what it has logged by then.  A
    blocked reply has its text read first and a reply that passes has its
    body parsed; either reading may reject, which the [catch] block
    answers.  When the answer is sent, and whether it ever is, is told by
    [answeredAfter] below. *)
Definition handler (req : Request) (up : Upstream) : nat -> Outcome * nat :=
  fun k =>
    if (method req =? "OPTIONS")%string then
      (mkOutcome corsHeaders 200 None [] None false, k)
    else if negb (method req =? "GET")%string then
      (mkOutcome corsHeaders 405
         (Some (wire (JObj [("error", JStr "Only GET allowed")])))
         [] None false, k)
    else
      let ts := Number_toString (clock k) in
      let url :=
        "https://stockanalysis.com/news/__data.json?x-sveltekit-invalidated="
        ++ ts ++ "_" ++ ts in
      let k1 := S k in
      match fetch up with
      | (Rejected error, ab) => (onError url [] ab error, k1)
      | (Resolved response, ab) =>
          if negb (ok response)
             || negb (includes "application/json" (contentTypeOf response))
          then
            match text_error response with
            | Some error => (onError url [] ab error, k1)
            | None =>
                (mkOutcome corsHeaders 502
                   (Some (wire (JObj
                      [("error", JStr "Source blocked request");
                       ("hint",
                        JStr "Check Vercel logs for Cloudflare/challenge details")])))
                   [blockedLine response] (Some url) ab, k1)
            end
          else
            match json response with
            | inl error => (onError url [] ab error, k1)
            | inr rawData =>
                match transformNewsData rawData k1 with
                | (inl error, k2) => (onError url [] ab error, k2)
                | (inr cleaned, k2) =>
                    if ToBoolean (Get cleaned "error") then
                      match Object_keys rawData with
                      | inl error => (onError url [] ab error, k2)
                      | inr keys =>
                          (mkOutcome corsHeaders 500
                             (Some (wire (JObj
                                [("error", JStr "Data structure changed");
                                 ("hint", JStr "Check transformation logic")])))
                             [[JStr "[TRANSFORM FAIL]"; Get cleaned "error";
                               JStr "Keys:"; JArr (map JStr keys)]]
                             (Some url) ab, k2)
                      end
                    else
                      (mkOutcome corsHeaders 200 (Some (wire cleaned)) []
                         (Some url) ab, k2)
                end
            end
      end.

(** When the answer of [handler] is sent, in milliseconds after the request
    came in, counting only the time spent at an [await]; [None] when it is
    never sent.  A request that is not a GET is answered at once.  A GET is
    answered at the deadline when [fetch] has not settled before it, when
    [fetch] rejects if it does so earlier, and otherwise when the reading of
    the body settles: the timer is cleared as soon as [fetch] resolves
    ([clearTimeout] after the [await]), so that reading lasts as long as
    the upstream makes it last, and for ever when the body never
    arrives. *)
Definition answeredAfter (req : Request) (up : Upstream) : option Z :=
  if (method req =? "OPTIONS")%string then Some 0
  else if negb (method req =? "GET")%string then Some 0
  else
    match settles_after up with
    | Some t =>
        if t <? deadline then
          match outcome up with
          | Rejected _ => Some t
          | Resolved response => option_map (Z.add t) (body_after response)
          end
        else Some deadline
    | None => Some deadline
    end.

(* ================================================================= *)
(** ** [api/stockanews.js], the revision with [imageUrl] *)

(** The sibling revision of the normalizer, [transformSvelteKitData].  It
    draws its fallback identifiers from [Math.random]; the counter of a
    computation counts these draws together with the clock readings.
    [transformSvelteKitData] gives the value it returns and [svelteConsole]
    the lines it writes to the console on the way.  It is called on parsed
    JSON only. *)

(** [Math.random().toString(36).slice(2)], were it the [k]-th reading. *)
Variable random : nat -> string.

(** [ToString] on an array or object ([None] when [ToPrimitive] throws) and
    on a number beyond the safe integers (the shortest digits that give the
    double back, in exponent form from [10^21] on), and [JSON.stringify],
    are left to the engine. *)
Variable ObjectToString : JsVal -> option string.
Variable ExponentToString : Z -> string.
Variable JSON_stringify : JsVal -> string.

Definition Math_random_id : M string := fun k => (inr (random k), S k).

(** [`${v}`] *)
Definition ToString (v : JsVal) : M string :=
  match v with
  | JUndefined => ret "undefined"
  | JNull => ret "null"
  | JBool b => ret (if b then "true" else "false")
  | JNum z => ret (if Z.abs z <=? 2 ^ 53 then Number_toString z
                   else ExponentToString z)
  | JStr s => ret s
  | JArr _ | JObj _ =>
      match ObjectToString v with
      | Some s => ret s
      | None => throw (TypeError "Cannot convert object to primitive value")
      end
  end.

(** [item?.id || item?.url?.split('/').pop()
     || Math.random().toString(36).slice(2)] *)
Definition svelteId (item : JsVal) : M JsVal :=
  let id := GetOpt item "id" in
  if ToBoolean id then ret id
  else
    seg <- match GetOpt item "url" with
           | JUndefined | JNull => ret JUndefined
           | JStr u => ret (JStr (pop (split "/" u)))
           | _ => throw (TypeError "item?.url?.split is not a function")
           end ;;
    if ToBoolean seg then ret seg
    else r <- Math_random_id ;; ret (JStr r).

(** [item?.x ? `https://stockanalysis.com${item.x}` : other] *)
Definition svelteAbsolute (item : JsVal) (x : string) (other : JsVal)
  : M JsVal :=
  if ToBoolean (GetOpt item x) then
    s <- ToString (Get item x) ;; ret (JStr (origin ++ s))
  else ret other.

(** The callback of [map]. *)
Definition svelteArticle (item : JsVal) : M JsVal :=
  id <- svelteId item ;;
  url <- svelteAbsolute item "url" (JStr "") ;;
  imageUrl <- svelteAbsolute item "image" JNull ;;
  ret (JObj [("id", id);
             ("title", JS.or (GetOpt item "title") (JStr ""));
             ("summary", JS.or (JS.or (GetOpt item "summary")
                                      (GetOpt item "description")) (JStr ""));
             ("url", url);
             ("source", JStr "StockAnalysis");
             ("publishedAt", JS.or (JS.or (GetOpt item "date")
                                          (GetOpt item "time")) JNull);
             ("imageUrl", imageUrl)]).

(** [article => article.title && article.url] *)
Definition svelteKeeps (article : JsVal) : bool :=
  ToBoolean (JS.and (Get article "title") (Get article "url")).

(** [data.nodes?.map(n => n?.type || 'unknown')] *)
Definition rawNodes (data : JsVal) : M JsVal :=
  if isNullish data then
    throw (TypeError "Cannot read properties of null (reading 'nodes')")
  else
    match Get data "nodes" with
    | JUndefined | JNull => ret JUndefined
    | JArr ns =>
        ret (JArr (map (fun n => JS.or (GetOpt n "type") (JStr "unknown")) ns))
    | _ => throw (TypeError "data.nodes?.map is not a function")
    end.

Definition transformSvelteKitData (data : JsVal) : M JsVal :=
  try_catch
    (match articlesNode data with
     | JArr newsNode =>
         now <- Date_now ;;
         mapped <- mapM svelteArticle newsNode ;;
         ret (JObj [("lastUpdated", JStr (toISOString now));
                    ("articles", JArr (filter svelteKeeps mapped))])
     | _ =>
         nodes <- rawNodes data ;;
         ret (JObj [("raw_nodes", nodes)])
     end)
    (fun transformErr =>
       ret (JObj [("error", JStr "Data parsing failed");
                  ("raw_sample", JStr (substring0 200 (JSON_stringify data)))])).

(** The lines [transformSvelteKitData] writes to the console: the
    [console.warn] of the fall-back when the article list is not an array,
    and the [console.error] of its [catch] block when the mapping, or the
    reading of the nodes, throws. *)
Definition svelteFailureLine (transformErr : Exn) : list JsVal :=
  [JStr "Data transformation failed:"; JStr (message transformErr)].

Definition svelteConsole (data : JsVal) : nat -> list (list JsVal) :=
  fun k =>
    match articlesNode data with
    | JArr newsNode =>
        match mapM svelteArticle newsNode (S k) with
        | (inl transformErr, _) => [svelteFailureLine transformErr]
        | (inr _, _) => []
        end
    | _ =>
        [JStr "Unexpected data structure - falling back to raw nodes"]
        :: match rawNodes data k with
           | (inl transformErr, _) => [svelteFailureLine transformErr]
           | (inr _, _) => []
           end
    end.

(** *** The handler of this revision *)

(** This revision arms no timer: the handler is given what [await fetch]
    yields.  [requestUrl] is [req.url], which it logs. *)

Definition svelteHeaders : list (string * string) :=
  [("Access-Control-Allow-Origin", "*");
   ("Access-Control-Allow-Methods", "GET, OPTIONS");
   ("Access-Control-Allow-Headers", "Content-Type");
   ("Cache-Control", "s-maxage=300, stale-while-revalidate=60")].

Definition jsonContentType : string * string :=
  ("Content-Type", "application/json; charset=utf-8").

(** [segs.join(sep)] *)
Fixpoint join (sep : ascii) (segs : list string) : string :=
  match segs with
  | [] => EmptyString
  | [seg] => seg
  | seg :: rest => seg ++ String sep (join sep rest)
  end.

(** [error.stack?.split('\n').slice(0, 3).join('\n')] *)
Definition stackTop (e : Exn) : JsVal :=
  match stack e with
  | Some s => JStr (join "010" (firstn 3 (split "010" s)))
  | None => JUndefined
  end.

(** The [catch] block. *)
Definition svelteOnError (requestUrl url : string) (error : Exn) : Outcome :=
  mkOutcome svelteHeaders 500
    (Some (wire (JObj [("error", JStr "Internal service error");
                       ("message",
                        JStr "News service temporarily unavailable")])))
    [[JStr "[STOCKANALYSIS API ERROR]";
      JObj [("message", JStr (message error));
            ("stack", stackTop error);
            ("url", JStr requestUrl)]]]
    (Some url) false.

Definition svelteHandler (req : Request) (requestUrl : string)
    (settled : Settled) : nat -> Outcome * nat :=
  fun k =>
    if (method req =? "OPTIONS")%string then
      (mkOutcome svelteHeaders 200 None [] None false, k)
    else if negb (method req =? "GET")%string then
      (mkOutcome svelteHeaders 405
         (Some (wire (JObj
            [("error",
              JStr "Method not allowed. Only GET requests permitted.")])))
         [] None false, k)
    else
      let invalidatedParam := Number_toString (clock k) in
      let url :=
        "https://stockanalysis.com/news/__data.json?x-sveltekit-trailing-slash=1&x-sveltekit-invalidated="
        ++ invalidatedParam in
      let k1 := S k in
      match settled with
      | Rejected error => (svelteOnError requestUrl url error, k1)
      | Resolved response =>
          if negb (ok response) then
            match text_error response with
            | Some error => (svelteOnError requestUrl url error, k1)
            | None =>
                (mkOutcome svelteHeaders 502
                   (Some (wire (JObj
                      [("error", JStr "Upstream service unavailable");
                       ("message",
                        JStr "Failed to retrieve news data. Please try again later.")])))
                   [[JStr ("[STOCKANALYSIS FETCH FAILED] Status: "
                           ++ Number_toString (status response) ++ " | URL: "
                           ++ url ++ " | Preview: "
                           ++ substring0 300 (text response))]]
                   (Some url) false, k1)
            end
          else
            match json response with
            | inl error => (svelteOnError requestUrl url error, k1)
            | inr rawData =>
                match transformSvelteKitData rawData k1 with
                | (inl error, k2) =>
                    (svelteOnError requestUrl url error, k2)
                | (inr cleanedData, k2) =>
                    (mkOutcome (svelteHeaders ++ [jsonContentType]) 200
                       (Some (wire cleanedData)) (svelteConsole rawData k1)
                       (Some url) false, k2)
                end
            end
      end.

(* ================================================================= *)
(** ** [api/stockanews.js], the pass-through revision *)

(** The earliest revision hands the upstream document on as it is.  It
    reads no clock.  [statusText] is [response.statusText], which it logs.
    The body it sends is the document printed with an indentation of two;
    [body] holds the value the client parses from that text. *)

Definition passThroughHeaders : list (string * string) :=
  [("Access-Control-Allow-Origin", "*");
   ("Access-Control-Allow-Methods", "GET");
   ("Access-Control-Allow-Headers", "Content-Type")].

Definition passThroughUrl : string :=
  "https://stockanalysis.com/news/__data.json?x-sveltekit-trailing-slash=1&x-sveltekit-invalidated=01".

(** The [catch] block. *)
Definition passThroughOnError (error : Exn) : Outcome :=
  mkOutcome passThroughHeaders 500
    (Some (wire (JObj [("error", JStr "Internal server error");
                       ("message", JStr (message error))])))
    [[JStr "Server error:"; JStr (message error)]]
    (Some passThroughUrl) false.

Definition passThroughHandler (req : Request) (statusText : string)
    (settled : Settled) : Outcome :=
  if negb (method req =? "GET")%string then
    mkOutcome passThroughHeaders 405
      (Some (wire (JObj [("error", JStr "Method not allowed")])))
      [] None false
  else
    match settled with
    | Rejected error => passThroughOnError error
    | Resolved response =>
        if negb (ok response) then
          mkOutcome passThroughHeaders 502
            (Some (wire (JObj
               [("error", JStr "Failed to fetch from stockanalysis API");
                ("status", JNum (status response));
                ("url", JStr passThroughUrl)])))
            [[JStr ("stockanalysis API error: "
                    ++ Number_toString (status response) ++ " "
                    ++ statusText)]]
            (Some passThroughUrl) false
        else
          match json response with
          | inl error => passThroughOnError error
          | inr data =>
              mkOutcome (passThroughHeaders ++ [jsonContentType]) 200
                (Some (wire data)) [] (Some passThroughUrl) false
          end
    end.

(* ================================================================= *)
(** ** Notions used in the statements *)

(** A value as [JSON.parse] yields it: no [undefined] inside. *)
Fixpoint isJSON (v : JsVal) : bool :=
  match v with
  | JUndefined => false
  | JArr l => forallb isJSON l
  | JObj ps => forallb (fun p => isJSON (snd p)) ps
  | _ => true
  end.

Fixpoint hasChar (c : ascii) (s : string) : bool :=
  match s with
  | EmptyString => false
  | String c' r => Ascii.eqb c' c || hasChar c r
  end.

(** A kept entry on which the callback of [transformNewsData] cannot throw:
    title and path are strings, the summary is a string or falsy, the date
    is absent, a boolean, or a number that is zero or fits a time value. *)
Definition wellTyped (item : JsVal) : bool :=
  isString (Get item "t") && isString (Get item "u")
  && (negb (ToBoolean (Get item "s")) || isString (Get item "s"))
  && match Get item "d" with
     | JUndefined | JNull | JBool _ => true
     | JNum z => (z =? 0) || (Z.abs (z * 1000) <=? maxTime)
     | _ => false
     end.

(** An entry on which the callback of [transformSvelteKitData] cannot
    throw: its path is absent or a string whenever its [id] is falsy, and
    path and image are falsy or strings. *)
Definition svelteTyped (item : JsVal) : bool :=
  (negb (ToBoolean (Get item "url")) || isString (Get item "url"))
  && (isNullish (Get item "url") || isString (Get item "url")
      || ToBoolean (Get item "id"))
  && (negb (ToBoolean (Get item "image")) || isString (Get item "image")).

(* ================================================================= *)
(** ** Properties *)

(** *** The runtime layer *)

Example iso_epoch : JS.toISOString 0 = "1970-01-01T00:00:00.000Z".
Proof. reflexivity. Qed.

Example iso_1700000000 :
  JS.toISOString 1700000000000 = "2023-11-14T22:13:20.000Z".
Proof. vm_compute. reflexivity. Qed.

Example iso_max :
  JS.toISOString JS.maxTime = "+275760-09-13T00:00:00.000Z".
Proof. vm_compute. reflexivity. Qed.

Example iso_min :
  JS.toISOString (- JS.maxTime) = "-271821-04-20T00:00:00.000Z".
Proof. vm_compute. reflexivity. Qed.

Example iso_leap :
  JS.toISOString 951782400999 = "2000-02-29T00:00:00.999Z".
Proof. vm_compute. reflexivity. Qed.

Example iso_before_epoch :
  JS.toISOString (-1) = "1969-12-31T23:59:59.999Z".
Proof. vm_compute. reflexivity. Qed.

Lemma YearFromTime_spec (t : Z) :
  JS.DayFromYear (JS.YearFromTime t) <= JS.Day t
  < JS.DayFromYear (JS.YearFromTime t + 1).
Proof.
  unfold JS.YearFromTime.
  set (d := JS.Day t). clearbody d.
  unfold JS.DayFromYear.
  destruct (Z.ltb_spec d (365 * (1970 + d * 400 / 146097 - 1970)
     + (1970 + d * 400 / 146097 - 1969) / 4
     - (1970 + d * 400 / 146097 - 1901) / 100
     + (1970 + d * 400 / 146097 - 1601) / 400)).
  - Z.div_mod_to_equations. lia.
  - match goal with |- context [if ?c then _ else _] => destruct c eqn:E end.
    + apply Z.leb_le in E. unfold JS.DayFromYear in E.
      Z.div_mod_to_equations. lia.
    + apply Z.leb_gt in E. unfold JS.DayFromYear in E.
      Z.div_mod_to_equations. lia.
Qed.

Lemma DayFromYear_succ (y : Z) :
  DayFromYear (y + 1) = DayFromYear y + DaysInYear y.
Proof.
  unfold DayFromYear, DaysInYear.
  destruct (Z.eqb_spec (y mod 4) 0); cbn [negb];
    [destruct (Z.eqb_spec (y mod 100) 0); cbn [negb];
     [destruct (Z.eqb_spec (y mod 400) 0); cbn [negb]|]|];
    Z.div_mod_to_equations; lia.
Qed.

(** [YearFromTime t] is the largest year that starts on or before [t]. *)
Lemma YearFromTime_largest (t y : Z) :
  DayFromYear y <= Day t -> y <= YearFromTime t.
Proof.
  intros H. pose proof (YearFromTime_spec t) as [_ Hlt].
  destruct (Z.le_gt_cases y (YearFromTime t)) as [|Hgt]; [assumption|].
  exfalso. revert H Hlt Hgt. generalize (YearFromTime t) (Day t).
  intros Y d. unfold DayFromYear. intros. Z.div_mod_to_equations. lia.
Qed.

Lemma DayWithinYear_range (t : Z) :
  0 <= DayWithinYear t < DaysInYear (YearFromTime t).
Proof.
  unfold DayWithinYear. pose proof (YearFromTime_spec t) as H.
  rewrite DayFromYear_succ in H. lia.
Qed.

Lemma MonthFromTime_range (t : Z) : 0 <= MonthFromTime t <= 11.
Proof.
  unfold MonthFromTime.
  repeat match goal with
         | |- context [if ?c then _ else _] => destruct c
         end; lia.
Qed.

Lemma DateFromTime_range (t : Z) : 1 <= DateFromTime t <= 31.
Proof.
  pose proof (DayWithinYear_range t) as Hd.
  unfold DateFromTime, MonthFromTime, InLeapYear in *.
  set (d := DayWithinYear t) in *. clearbody d.
  assert (DaysInYear (YearFromTime t) = 365
          \/ DaysInYear (YearFromTime t) = 366) as [E | E].
  { unfold DaysInYear.
    repeat match goal with
           | |- context [if ?c then _ else _] => destruct c
           end; auto. }
  all: rewrite E in *; cbn [Z.eqb Pos.eqb] in *;
    repeat match goal with
           | |- context [if ?c <? ?e then _ else _] =>
               destruct (Z.ltb_spec c e)
           end; lia.
Qed.

Lemma trimEnd_empty (s : string) :
  trimEnd s = "" <-> allWhiteSpace s = true.
Proof.
  induction s as [|c r IH]; cbn [trimEnd allWhiteSpace]; [tauto|].
  destruct (trimEnd r) eqn:E.
  - destruct (isWhiteSpace c); cbn [andb].
    + split; intros _; [apply IH|]; reflexivity.
    + split; discriminate.
  - split; [discriminate|]. intros H. apply andb_true_iff in H as [_ H].
    apply IH in H. discriminate.
Qed.

Lemma allWhiteSpace_trimStart (s : string) :
  allWhiteSpace (trimStart s) = allWhiteSpace s.
Proof.
  induction s as [|c r IH]; [reflexivity|]. cbn [trimStart].
  destruct (isWhiteSpace c) eqn:E; cbn [allWhiteSpace]; rewrite E;
    [exact IH | reflexivity].
Qed.

(** [trim] leaves nothing exactly of the strings made of white space. *)
Lemma trim_empty (s : string) : trim s = "" <-> allWhiteSpace s = true.
Proof.
  unfold trim. rewrite trimEnd_empty, allWhiteSpace_trimStart. tauto.
Qed.

Lemma trim_origin (u : string) : trim (origin ++ u) <> "".
Proof.
  rewrite trim_empty. unfold origin. cbn. discriminate.
Qed.

(** *** Computations *)

Lemma mapM_inv {A B : Type} (f : A -> M B) (xs : list A) :
  forall k ys k', mapM f xs k = (inr ys, k') ->
  Forall2 (fun x y => exists k1 k2, f x k1 = (inr y, k2)) xs ys.
Proof.
  induction xs as [|x xs IH]; intros k ys k' H.
  - injection H as <- _. constructor.
  - cbn [mapM] in H. unfold bind in H.
    destruct (f x k) as [[e|y] k1] eqn:Ex; [discriminate|].
    destruct (mapM f xs k1) as [[e|ys'] k2] eqn:Exs; [discriminate|].
    injection H as <- _. constructor; eauto.
Qed.

Lemma Forall2_left {A B : Type} (P : A -> Prop) (R : A -> B -> Prop)
    (xs : list A) (ys : list B) :
  Forall P xs -> Forall2 R xs ys -> Forall2 (fun x y => P x /\ R x y) xs ys.
Proof.
  intros HP HR. induction HR as [|x y xs ys Hxy _ IH]; constructor.
  - split; [exact (Forall_inv HP) | exact Hxy].
  - apply IH. exact (Forall_inv_tail HP).
Qed.

Lemma filter_all {A : Type} (f : A -> bool) (xs : list A) :
  Forall (fun x => f x = true) (filter f xs).
Proof. apply Forall_forall. intros x Hx. apply filter_In in Hx. tauto. Qed.

(** One element on which the callback throws makes the whole [map] throw. *)
Lemma mapM_throws {A B : Type} (f : A -> M B) (xs : list A) (x : A) :
  In x xs -> (forall k, exists e k', f x k = (inl e, k')) ->
  forall k, exists e k', mapM f xs k = (inl e, k').
Proof.
  intros Hin Hx. induction xs as [|y xs IH]; [contradiction|].
  intros k. cbn [mapM]. unfold bind.
  destruct (f y k) as [[e|b] k1] eqn:Ey; [eauto|].
  destruct Hin as [-> | Hin].
  - destruct (Hx k) as (e & k' & E). congruence.
  - destruct (IH Hin k1) as (e & k' & ->). eauto.
Qed.

(** *** The normalizer *)

Lemma transformNewsData_array (data : JsVal) (node : list JsVal) (k : nat) :
  articlesNode data = JArr node ->
  transformNewsData data k =
  match mapM mapArticle (filter keeps node) k with
  | (inr articles, k') =>
      (inr (JObj [("success", JBool true);
                  ("count", JNum (Z.of_nat (List.length articles)));
                  ("lastUpdated", JStr (toISOString (clock k')));
                  ("articles", JArr articles)]), S k')
  | (inl err, k') => (inr (JObj [("error", JStr (message err))]), k')
  end.
Proof.
  intros E. unfold transformNewsData, try_catch. rewrite E. unfold bind.
  destruct (mapM mapArticle (filter keeps node) k) as [[e|arts] k'];
    reflexivity.
Qed.

Lemma transformNewsData_other (data : JsVal) (k : nat) :
  isArray (articlesNode data) = false ->
  transformNewsData data k =
  (inr (JObj [("error", JStr "Unexpected data structure");
              ("hasNodes", JBool (ToBoolean (GetOpt data "nodes")));
              ("nodeCount", GetOpt (GetOpt data "nodes") "length")]), k).
Proof.
  intros E. unfold transformNewsData, try_catch.
  destruct (articlesNode data); try reflexivity. discriminate.
Qed.

(** The normalizer itself never throws. *)
Lemma transformNewsData_returns (data : JsVal) (k : nat) :
  exists cleaned k', transformNewsData data k = (inr cleaned, k').
Proof.
  destruct (articlesNode data) as [| | | | |node|] eqn:E;
    try (rewrite transformNewsData_other by (rewrite E; reflexivity); eauto).
  rewrite (transformNewsData_array _ _ _ E).
  destruct (mapM mapArticle (filter keeps node) k) as [[e|arts] k']; eauto.
Qed.

(** C7. The entry [{ t: "Title", u: "/news/abc-123", d: 1700000000,
    s: "Summary" }] is kept, is mapped to exactly the Article of the
    specification without reading the clock, and a payload holding it alone
    yields that Article alone. *)
Theorem C7_sample_entry (k : nat) :
  keeps Sample.entry = true /\
  mapArticle Sample.entry k = (inr Sample.article, k) /\
  transformNewsData (Sample.payload [Sample.entry]) k =
  (inr (JObj [("success", JBool true);
              ("count", JNum 1);
              ("lastUpdated", JStr (toISOString (clock k)));
              ("articles", JArr [Sample.article])]), S k).
Proof.
  assert (mapArticle Sample.entry k = (inr Sample.article, k)) as Hmap
    by (vm_compute; reflexivity).
  split; [reflexivity|]. split; [exact Hmap|].
  rewrite (transformNewsData_array _ [Sample.entry]) by reflexivity.
  change (filter keeps [Sample.entry]) with [Sample.entry].
  cbn [mapM]. unfold bind. rewrite Hmap. reflexivity.
Qed.

(** *** The fields of an Article *)

Lemma articleId_inv (item : JsVal) (k : nat) (id : string) (k' : nat) :
  articleId item k = (inr id, k') ->
  exists u, Get item "u" = JStr u /\
    if (pop (split "/" u) =? "")%string
    then id = Number_toString (clock k) /\ k' = S k
    else id = pop (split "/" u) /\ k' = k.
Proof.
  unfold articleId. destruct (Get item "u") as [| | | |u| |]; try discriminate.
  intros H. exists u. split; [reflexivity|].
  destruct (pop (split "/" u) =? "")%string; injection H as <- <-; auto.
Qed.

Lemma articleTitle_inv (item : JsVal) (k : nat) (title : string) (k' : nat) :
  articleTitle item k = (inr title, k') ->
  exists t, Get item "t" = JStr t /\ title = trim t /\ k' = k.
Proof.
  unfold articleTitle. destruct (Get item "t") as [| | | |t| |];
    try discriminate.
  intros H. injection H as <- <-. eauto.
Qed.

Lemma articleSummary_state (item : JsVal) (k : nat) (r : Exn + string)
    (k' : nat) :
  articleSummary item k = (r, k') -> k' = k.
Proof.
  unfold articleSummary.
  destruct (JS.or (Get item "s") (JStr "")); intros H; injection H as _ <-;
    reflexivity.
Qed.

Lemma ToNumber_state (v : JsVal) (k : nat) : snd (ToNumber v k) = k.
Proof.
  destruct v; try reflexivity; cbn [ToNumber];
    destruct (ObjectToNumber _); reflexivity.
Qed.

Lemma articlePublishedAt_state (item : JsVal) (k : nat) (r : Exn + JsVal)
    (k' : nat) :
  articlePublishedAt item k = (r, k') -> k' = k.
Proof.
  unfold articlePublishedAt, bind.
  destruct (ToBoolean (Get item "d")).
  - pose proof (ToNumber_state (Get item "d") k) as Hs.
    destruct (ToNumber (Get item "d") k) as [[e|n] k1]; cbn [snd] in Hs; subst k1.
    + intros H. injection H as _ <-. reflexivity.
    + destruct (TimeClip (times1000 n)); intros H; injection H as _ <-;
        reflexivity.
  - intros H. injection H as _ <-. reflexivity.
Qed.

(** A numeric date: zero is falsy and gives [null]; a value whose
    milliseconds fit a time value gives its ISO string; any other makes
    [toISOString] throw. *)
Lemma articlePublishedAt_num (item : JsVal) (z : Z) (k : nat) :
  Get item "d" = JNum z ->
  articlePublishedAt item k =
  if z =? 0 then (inr JNull, k)
  else if Z.abs (z * 1000) <=? maxTime
       then (inr (JStr (toISOString (z * 1000))), k)
       else (inl (RangeError "Invalid time value"), k).
Proof.
  intros E. unfold articlePublishedAt, bind. rewrite E.
  cbn [ToBoolean ToNumber ret times1000 TimeClip].
  destruct (z =? 0); cbn [negb]; [reflexivity|].
  destruct (Z.abs (z * 1000) <=? maxTime); reflexivity.
Qed.

Lemma articlePublishedAt_absent (item : JsVal) (k : nat) :
  isNullish (Get item "d") = true ->
  articlePublishedAt item k = (inr JNull, k).
Proof.
  unfold articlePublishedAt. destruct (Get item "d"); try discriminate;
    reflexivity.
Qed.

(** What a successful run of the callback returns. *)
Lemma mapArticle_inv (item : JsVal) (k : nat) (a : JsVal) (k' : nat) :
  mapArticle item k = (inr a, k') ->
  exists id t u summary publishedAt,
    Get item "t" = JStr t /\ Get item "u" = JStr u /\
    articleId item k = (inr id, k') /\
    articlePublishedAt item k' = (inr publishedAt, k') /\
    a = JObj [("id", JStr id);
              ("title", JStr (trim t));
              ("summary", JStr summary);
              ("url", JStr (origin ++ u));
              ("publishedAt", publishedAt);
              ("source", JStr "StockAnalysis")].
Proof.
  unfold mapArticle, bind. intros H.
  destruct (articleId item k) as [[e|id] k1] eqn:Eid; [discriminate|].
  destruct (articleTitle item k1) as [[e|title] k2] eqn:Et; [discriminate|].
  destruct (articleSummary item k2) as [[e|summary] k3] eqn:Es; [discriminate|].
  destruct (articlePublishedAt item k3) as [[e|p] k4] eqn:Ep; [discriminate|].
  injection H as <- <-.
  apply articleTitle_inv in Et as (t & Ht & -> & ->).
  apply articleSummary_state in Es as ->.
  pose proof (articlePublishedAt_state _ _ _ _ Ep) as ->.
  destruct (articleId_inv _ _ _ _ Eid) as (u & Hu & _).
  exists id, t, u, summary, p. unfold articleUrl. rewrite Hu. auto.
Qed.

(** Every exception of the callback carries a message. *)
Lemma mapArticle_message (item : JsVal) (k : nat) (e : Exn) (k' : nat) :
  mapArticle item k = (inl e, k') -> message e <> "".
Proof.
  unfold mapArticle, bind. intros H.
  destruct (articleId item k) as [[e1|id] k1] eqn:Eid.
  { injection H as <- _. unfold articleId in Eid.
    destruct (Get item "u") as [| | | |u| |];
      try (injection Eid as <- _; discriminate).
    destruct (pop (split "/" u) =? "")%string; discriminate. }
  destruct (articleTitle item k1) as [[e1|title] k2] eqn:Et.
  { injection H as <- _. unfold articleTitle in Et.
    destruct (Get item "t"); try (injection Et as <- _; discriminate).
    discriminate. }
  destruct (articleSummary item k2) as [[e1|summary] k3] eqn:Es.
  { injection H as <- _. unfold articleSummary in Es.
    destruct (JS.or (Get item "s") (JStr ""));
      try (injection Es as <- _; discriminate).
    discriminate. }
  destruct (articlePublishedAt item k3) as [[e1|p] k4] eqn:Ep; [|discriminate].
  injection H as <- _. unfold articlePublishedAt, bind in Ep.
  destruct (ToBoolean (Get item "d")); [|discriminate].
  destruct (ToNumber (Get item "d") k3) as [[e2|n] k5] eqn:En.
  - injection Ep as <- _. destruct (Get item "d"); try discriminate;
      cbn [ToNumber] in En; destruct (ObjectToNumber _); try discriminate;
      injection En as <- _; discriminate.
  - destruct (TimeClip (times1000 n)); [discriminate|].
    injection Ep as <- _. discriminate.
Qed.

Lemma mapM_error {A B : Type} (f : A -> M B) (xs : list A) :
  forall k e k', mapM f xs k = (inl e, k') ->
  exists x k1 k2, In x xs /\ f x k1 = (inl e, k2).
Proof.
  induction xs as [|x xs IH]; intros k e k' H; [discriminate|].
  cbn [mapM] in H. unfold bind in H.
  destruct (f x k) as [[e1|y] k1] eqn:Ex.
  - injection H as <- <-. exists x, k, k1. split; [left; reflexivity | exact Ex].
  - destruct (mapM f xs k1) as [[e2|ys] k2] eqn:Exs; [|discriminate].
    injection H as <- <-. destruct (IH _ _ _ Exs) as (x' & j1 & j2 & Hin & Hx).
    exists x', j1, j2. split; [right; exact Hin | exact Hx].
Qed.

(** The two shapes of the normalizer's result on an array. *)
Lemma transformNewsData_cases (data : JsVal) (node : list JsVal) (k : nat)
    (cleaned : JsVal) (k' : nat) :
  articlesNode data = JArr node ->
  transformNewsData data k = (inr cleaned, k') ->
  (exists articles j,
     mapM mapArticle (filter keeps node) k = (inr articles, j) /\
     Get cleaned "articles" = JArr articles /\
     Get cleaned "error" = JUndefined) \/
  (exists e j,
     mapM mapArticle (filter keeps node) k = (inl e, j) /\
     cleaned = JObj [("error", JStr (message e))] /\
     message e <> "").
Proof.
  intros E H. rewrite (transformNewsData_array _ _ _ E) in H.
  destruct (mapM mapArticle (filter keeps node) k) as [[e|arts] j] eqn:Em;
    injection H as <- <-.
  - right. exists e, j. repeat split.
    destruct (mapM_error _ _ _ _ _ Em) as (x & k1 & k2 & _ & Hx).
    exact (mapArticle_message _ _ _ _ Hx).
  - left. exists arts, j. repeat split.
Qed.

(** C1, as amended.  On an array, every Article the normalizer emits comes
    from an entry whose title and URL path are non-empty strings, and its
    [url] is the origin followed by that path, non-empty also after
    trimming.  The filter tests the path as it is, not trimmed.  For an
    entry whose title holds a character that is not white space the [title]
    emitted is the trimmed title, and it is not empty.  An entry that is
    falsy or whose title or URL path is absent, [null] or empty is not among
    the kept ones. *)
Theorem C1_emitted_articles (data : JsVal) (node : list JsVal) (k : nat)
    (cleaned : JsVal) (k' : nat) (articles : list JsVal) :
  articlesNode data = JArr node ->
  transformNewsData data k = (inr cleaned, k') ->
  Get cleaned "articles" = JArr articles ->
  Forall2 (fun item a =>
     exists t u,
       Get item "t" = JStr t /\ t <> "" /\
       Get item "u" = JStr u /\ u <> "" /\
       Get a "url" = JStr (origin ++ u) /\
       trim (origin ++ u) <> "" /\
       (allWhiteSpace t = false ->
        Get a "title" = JStr (trim t) /\ trim t <> ""))
    (filter keeps node) articles /\
  (forall item, In item node ->
     ToBoolean item = false \/ ToBoolean (Get item "t") = false
     \/ ToBoolean (Get item "u") = false ->
     ~ In item (filter keeps node)).
Proof.
  intros E H Ha. split.
  - destruct (transformNewsData_cases _ _ _ _ _ E H)
      as [(arts & j & Hm & Harts & _) | (e & j & _ & -> & _)];
      [|discriminate].
    rewrite Ha in Harts. injection Harts as <-.
    apply mapM_inv in Hm.
    apply (Forall2_left _ _ _ _ (filter_all keeps node)) in Hm.
    revert Hm. apply Forall2_impl.
    intros item a (Hk & k1 & k2 & Hx).
    apply mapArticle_inv in Hx
      as (id & t & u & s & p & Ht & Hu & _ & _ & ->).
    exists t, u. unfold keeps in Hk. rewrite Ht, Hu in Hk.
    destruct (ToBoolean item); [|discriminate].
    cbn [ToBoolean] in Hk.
    destruct (t =? "")%string eqn:Et; [discriminate|].
    destruct (u =? "")%string eqn:Eu; [discriminate|].
    apply String.eqb_neq in Et, Eu.
    repeat split; auto.
    + apply trim_origin.
    + intros Htrim. apply trim_empty in Htrim. congruence.
  - intros item _ Hfalsy Hin. apply filter_In in Hin as [_ Hk].
    unfold keeps in Hk.
    destruct Hfalsy as [F | [F | F]]; rewrite F in Hk;
      repeat match type of Hk with
             | (if ?c then _ else _) = true => destruct c
             end; discriminate.
Qed.

(** C2, as amended.  An entry the filter drops is isolated: with or without
    it the normalizer returns the same result.  An entry that passes the
    filter with a title or a URL path that is not a string is not: the
    callback throws on it and the whole result is an error value without
    articles. *)
Theorem C2_entry_isolation (data data' : JsVal) (pre post : list JsVal)
    (item : JsVal) (k : nat) :
  articlesNode data = JArr (pre ++ item :: post) ->
  articlesNode data' = JArr (pre ++ post) ->
  (keeps item = false ->
   transformNewsData data k = transformNewsData data' k) /\
  (keeps item = true ->
   isString (Get item "t") && isString (Get item "u") = false ->
   exists msg, fst (transformNewsData data k) = inr (JObj [("error", JStr msg)])
               /\ msg <> "").
Proof.
  intros E E'. split.
  - intros Hk.
    rewrite (transformNewsData_array _ _ _ E), (transformNewsData_array _ _ _ E').
    rewrite !filter_app. cbn [filter]. rewrite Hk. reflexivity.
  - intros Hk Hs.
    assert (forall j, exists e j', mapArticle item j = (inl e, j')) as Hthrow.
    { intros j. unfold mapArticle, bind, articleId, articleTitle.
      destruct (Get item "u") as [| | | |u| |]; cbn [isString] in Hs;
        try (eexists _, _; reflexivity).
      rewrite andb_true_r in Hs.
      destruct (pop (split "/" u) =? "")%string; cbn [ret Date_now bind];
        destruct (Get item "t"); try discriminate;
        eexists _, _; reflexivity. }
    assert (In item (filter keeps (pre ++ item :: post))) as Hin.
    { apply filter_In. split; [|exact Hk]. apply in_or_app. right. left.
      reflexivity. }
    destruct (mapM_throws _ _ _ Hin Hthrow k) as (e & j & Hm).
    rewrite (transformNewsData_array _ _ _ E), Hm. cbn [fst].
    exists (message e). split; [reflexivity|].
    destruct (mapM_error _ _ _ _ _ Hm) as (x & k1 & k2 & _ & Hx).
    exact (mapArticle_message _ _ _ _ Hx).
Qed.

(** C3, as amended.  On success, the [publishedAt] of every Article is
    [null] when the date of its entry is absent, [null] or the number zero,
    and the ISO-8601 string of the date times 1000 when it is another
    number, whose milliseconds then fit a time value.  A kept entry whose
    numeric date does not fit makes the normalizer return an error value
    without articles. *)
Theorem C3_publishedAt (data : JsVal) (node : list JsVal) (k : nat)
    (cleaned : JsVal) (k' : nat) :
  articlesNode data = JArr node ->
  transformNewsData data k = (inr cleaned, k') ->
  (forall articles, Get cleaned "articles" = JArr articles ->
     Forall2 (fun item a =>
        (isNullish (Get item "d") = true -> Get a "publishedAt" = JNull) /\
        (forall z, Get item "d" = JNum z ->
           Get a "publishedAt" =
             (if z =? 0 then JNull else JStr (toISOString (z * 1000))) /\
           (z <> 0 -> Z.abs (z * 1000) <= maxTime)))
       (filter keeps node) articles) /\
  (forall item z,
     In item node -> keeps item = true -> Get item "d" = JNum z ->
     maxTime < Z.abs (z * 1000) ->
     Get cleaned "articles" = JUndefined /\
     ToBoolean (Get cleaned "error") = true).
Proof.
  intros E H.
  destruct (transformNewsData_cases _ _ _ _ _ E H)
    as [(arts & j & Hm & Harts & _) | (e & j & Hm & -> & Hmsg)].
  - split.
    + intros articles Ha. rewrite Ha in Harts. injection Harts as <-.
      apply mapM_inv in Hm. revert Hm. apply Forall2_impl.
      intros item a (k1 & k2 & Hx).
      apply mapArticle_inv in Hx
        as (id & t & u & s & p & _ & _ & _ & Hp & ->).
      cbn [Get lookup String.eqb Ascii.eqb Bool.eqb]. split.
      * intros Hn. rewrite (articlePublishedAt_absent _ _ Hn) in Hp.
        congruence.
      * intros z Hz. rewrite (articlePublishedAt_num _ _ _ Hz) in Hp.
        destruct (z =? 0) eqn:Ez; [split; [congruence|]|].
        { apply Z.eqb_eq in Ez. congruence. }
        destruct (Z.leb_spec (Z.abs (z * 1000)) maxTime);
          [split; [congruence | auto] | discriminate].
    + intros item z Hin Hk Hz Hbig. exfalso.
      assert (In item (filter keeps node)) as Hin'
        by (apply filter_In; auto).
      apply mapM_inv in Hm.
      assert (exists a k1 k2, mapArticle item k1 = (inr a, k2))
        as (a & k1 & k2 & Hx).
      { clear - Hm Hin'. induction Hm as [|x a xs arts (k1 & k2 & Hx) _ IH];
          [contradiction|].
        destruct Hin' as [-> | Hin']; eauto. }
      apply mapArticle_inv in Hx
        as (id & t & u & s & p & _ & _ & _ & Hp & _).
      rewrite (articlePublishedAt_num _ _ _ Hz) in Hp.
      destruct (z =? 0) eqn:Ez.
      { apply Z.eqb_eq in Ez. subst z. cbn in Hbig. unfold maxTime in Hbig.
        lia. }
      destruct (Z.leb_spec (Z.abs (z * 1000)) maxTime); [lia | discriminate].
  - split; [discriminate|].
    intros _ _ _ _ _ _. split; [reflexivity|].
    cbn [Get lookup String.eqb Ascii.eqb Bool.eqb ToBoolean].
    destruct (message e =? "")%string eqn:Em; [|reflexivity].
    apply String.eqb_eq in Em. contradiction.
Qed.

(** *** Readings of the clock *)

Lemma readingFree_ret {A : Type} (a : A) : readingFree (ret a).
Proof. exists (inr a). reflexivity. Qed.

Lemma readingFree_throw {A : Type} (e : Exn) : readingFree (@throw A e).
Proof. exists (inl e). reflexivity. Qed.

Lemma readingFree_bind {A B : Type} (m : M A) (f : A -> M B) :
  readingFree m -> (forall a, readingFree (f a)) -> readingFree (bind m f).
Proof.
  intros [[e|a] Hm] Hf.
  - exists (inl e). intros k. unfold bind. rewrite Hm. reflexivity.
  - destruct (Hf a) as [r Hr]. exists r. intros k. unfold bind.
    rewrite Hm. apply Hr.
Qed.

Lemma readingFree_mapM {A B : Type} (f : A -> M B) (xs : list A) :
  Forall (fun x => readingFree (f x)) xs -> readingFree (mapM f xs).
Proof.
  induction 1 as [|x xs Hx _ IH]; cbn [mapM].
  - apply readingFree_ret.
  - apply readingFree_bind; [exact Hx|]. intros y.
    apply readingFree_bind; [exact IH|]. intros ys. apply readingFree_ret.
Qed.

Lemma readingFree_ToNumber (v : JsVal) : readingFree (ToNumber v).
Proof.
  destruct v; cbn [ToNumber]; try apply readingFree_ret;
    destruct (ObjectToNumber _);
    (apply readingFree_ret || apply readingFree_throw).
Qed.

Lemma readingFree_mapArticle (item : JsVal) :
  idFromUrl item = true -> readingFree (mapArticle item).
Proof.
  intros Hid. unfold mapArticle.
  apply readingFree_bind.
  { unfold articleId, idFromUrl in *.
    destruct (Get item "u"); try apply readingFree_throw.
    destruct (pop (split "/" s) =? "")%string; [discriminate|].
    apply readingFree_ret. }
  intros id. apply readingFree_bind.
  { unfold articleTitle.
    destruct (Get item "t");
      (apply readingFree_ret || apply readingFree_throw). }
  intros title. apply readingFree_bind.
  { unfold articleSummary.
    destruct (JS.or (Get item "s") (JStr ""));
      (apply readingFree_ret || apply readingFree_throw). }
  intros summary. apply readingFree_bind; [|intros; apply readingFree_ret].
  unfold articlePublishedAt.
  destruct (ToBoolean (Get item "d")); [|apply readingFree_ret].
  apply readingFree_bind; [apply readingFree_ToNumber|].
  intros n. destruct (TimeClip (times1000 n));
    (apply readingFree_ret || apply readingFree_throw).
Qed.

(** When every identifier comes from a URL path, the clock is read once, for
    [lastUpdated], and only on success. *)
Lemma transformNewsData_readings (data : JsVal) :
  idsFromUrls data = true ->
  (exists cleaned, forall k, transformNewsData data k = (inr cleaned, k)) \/
  (exists articles, forall k,
     transformNewsData data k =
     (inr (JObj [("success", JBool true);
                 ("count", JNum (Z.of_nat (List.length articles)));
                 ("lastUpdated", JStr (toISOString (clock k)));
                 ("articles", JArr articles)]), S k)).
Proof.
  unfold idsFromUrls. intros H.
  destruct (articlesNode data) as [| | | | |node|] eqn:E;
    try (left; eexists; intros k; apply transformNewsData_other;
         rewrite E; reflexivity).
  assert (readingFree (mapM mapArticle (filter keeps node))) as [[e|arts] Hr].
  { apply readingFree_mapM. rewrite forallb_forall in H.
    apply Forall_forall. intros x Hx. apply readingFree_mapArticle. auto. }
  - left. eexists. intros k.
    rewrite (transformNewsData_array _ _ _ E), Hr. reflexivity.
  - right. exists arts. intros k.
    rewrite (transformNewsData_array _ _ _ E), Hr. reflexivity.
Qed.

(** *** The revision with [imageUrl] *)

Lemma GetOpt_Get (v : JsVal) (x : string) : GetOpt v x = Get v x.
Proof. destruct v; reflexivity. Qed.

Lemma ToString_state (v : JsVal) (k : nat) : snd (ToString v k) = k.
Proof.
  destruct v; try reflexivity; cbn [ToString];
    destruct (ObjectToString _); reflexivity.
Qed.

(** The absolute URL built from the property [x]: [other] when the property
    is falsy, the origin followed by its string form otherwise, which is
    the property itself when it is a string. *)
Lemma svelteAbsolute_inv (item : JsVal) (x : string) (other v : JsVal)
    (k k' : nat) :
  svelteAbsolute item x other k = (inr v, k') ->
  k' = k /\
  (ToBoolean (Get item x) = false /\ v = other \/
   ToBoolean (Get item x) = true /\
   exists s, v = JStr (origin ++ s) /\
             forall p, Get item x = JStr p -> s = p).
Proof.
  unfold svelteAbsolute, bind. rewrite GetOpt_Get.
  destruct (ToBoolean (Get item x)) eqn:Eb.
  - pose proof (ToString_state (Get item x) k) as Hs.
    destruct (ToString (Get item x) k) as [[e|s] k1] eqn:Es; [discriminate|].
    cbn [snd] in Hs. subst k1. intros H. injection H as <- <-.
    split; [reflexivity|]. right. split; [reflexivity|].
    exists s. split; [reflexivity|]. intros p Hp. rewrite Hp in Es.
    injection Es as <-. reflexivity.
  - intros H. injection H as <- <-. auto.
Qed.

Lemma svelteArticle_inv (item : JsVal) (k : nat) (a : JsVal) (k' : nat) :
  svelteArticle item k = (inr a, k') ->
  exists id url imageUrl k1,
    svelteAbsolute item "url" (JStr "") k1 = (inr url, k1) /\
    svelteAbsolute item "image" JNull k1 = (inr imageUrl, k1) /\
    a = JObj [("id", id);
              ("title", JS.or (GetOpt item "title") (JStr ""));
              ("summary", JS.or (JS.or (GetOpt item "summary")
                                       (GetOpt item "description")) (JStr ""));
              ("url", url);
              ("source", JStr "StockAnalysis");
              ("publishedAt", JS.or (JS.or (GetOpt item "date")
                                           (GetOpt item "time")) JNull);
              ("imageUrl", imageUrl)].
Proof.
  unfold svelteArticle, bind. intros H.
  destruct (svelteId item k) as [[e|id] k1]; [discriminate|].
  destruct (svelteAbsolute item "url" (JStr "") k1) as [[e|url] k2] eqn:Eu;
    [discriminate|].
  destruct (svelteAbsolute item "image" JNull k2) as [[e|img] k3] eqn:Ei;
    [discriminate|].
  injection H as <- <-.
  destruct (svelteAbsolute_inv _ _ _ _ _ _ Eu) as [-> _].
  destruct (svelteAbsolute_inv _ _ _ _ _ _ Ei) as [-> _].
  exists id, url, img, k1. auto.
Qed.

Lemma transformSvelteKitData_array (data : JsVal) (node : list JsVal)
    (k : nat) :
  articlesNode data = JArr node ->
  transformSvelteKitData data k =
  match mapM svelteArticle node (S k) with
  | (inr mapped, k') =>
      (inr (JObj [("lastUpdated", JStr (toISOString (clock k)));
                  ("articles", JArr (filter svelteKeeps mapped))]), k')
  | (inl e, k') =>
      (inr (JObj [("error", JStr "Data parsing failed");
                  ("raw_sample",
                   JStr (substring0 200 (JSON_stringify data)))]), k')
  end.
Proof.
  intros E. unfold transformSvelteKitData, try_catch. rewrite E.
  unfold bind, Date_now.
  destruct (mapM svelteArticle node (S k)) as [[e|mapped] k']; reflexivity.
Qed.

Lemma Forall2_In_r {A B : Type} (R : A -> B -> Prop) (xs : list A)
    (ys : list B) (y : B) :
  Forall2 R xs ys -> In y ys -> exists x, In x xs /\ R x y.
Proof.
  induction 1 as [|x y' xs ys Hxy _ IH]; [contradiction|].
  intros [<- | Hin].
  - exists x. split; [left; reflexivity | exact Hxy].
  - destruct (IH Hin) as (x' & Hx' & HR). exists x'. split; [right|]; auto.
Qed.



(** C9, as amended.  An Article emitted by [transformNewsData] has exactly
    the six properties [id], [title], [summary], [url], [publishedAt] and
    [source], and no [imageUrl].  The sibling [transformSvelteKitData] maps
    every entry, in order, to a record of exactly seven properties,
    [imageUrl] among them, and emits the records that pass its filter: the
    [imageUrl] of a record is [null] when the image of its own entry is
    absent or falsy, and otherwise the origin followed by that image, which
    is the image path itself when it is a string. *)
Theorem C9_article_fields (data : JsVal) (node : list JsVal) (k : nat)
    (cleaned : JsVal) (k' : nat) (articles : list JsVal)
    (data' : JsVal) (node' : list JsVal) (j : nat)
    (cleaned' : JsVal) (j' : nat) (articles' : list JsVal) :
  articlesNode data = JArr node ->
  transformNewsData data k = (inr cleaned, k') ->
  Get cleaned "articles" = JArr articles ->
  articlesNode data' = JArr node' ->
  transformSvelteKitData data' j = (inr cleaned', j') ->
  Get cleaned' "articles" = JArr articles' ->
  Forall (fun a =>
     Object_keys a
     = inr ["id"; "title"; "summary"; "url"; "publishedAt"; "source"] /\
     Get a "imageUrl" = JUndefined) articles /\
  exists mapped,
    articles' = filter svelteKeeps mapped /\
    Forall2 (fun item a =>
       Object_keys a
       = inr ["id"; "title"; "summary"; "url"; "source"; "publishedAt";
              "imageUrl"] /\
       (ToBoolean (Get item "image") = false -> Get a "imageUrl" = JNull) /\
       (ToBoolean (Get item "image") = true ->
        exists s, Get a "imageUrl" = JStr (origin ++ s) /\
                  forall path, Get item "image" = JStr path -> s = path))
      node' mapped.
Proof.
  intros E H Ha E' H' Ha'. split.
  - destruct (transformNewsData_cases _ _ _ _ _ E H)
      as [(arts & i & Hm & Harts & _) | (e & i & _ & -> & _)];
      [|discriminate].
    rewrite Ha in Harts. injection Harts as <-.
    apply mapM_inv in Hm. apply Forall_forall. intros a Hin.
    destruct (Forall2_In_r _ _ _ _ Hm Hin) as (item & _ & k1 & k2 & Hx).
    apply mapArticle_inv in Hx as (id & t & u & s & p & _ & _ & _ & _ & ->).
    split; reflexivity.
  - rewrite (transformSvelteKitData_array _ _ _ E') in H'.
    destruct (mapM svelteArticle node' (S j)) as [[e|mapped] i] eqn:Em;
      injection H' as <- <-; [discriminate|].
    injection Ha' as <-. exists mapped. split; [reflexivity|].
    apply mapM_inv in Em. revert Em. apply Forall2_impl.
    intros item a (k1 & k2 & Hx).
    apply svelteArticle_inv in Hx as (id & url & img & i' & _ & Hi & ->).
    split; [reflexivity|].
    cbn [Get lookup String.eqb Ascii.eqb Bool.eqb].
    destruct (svelteAbsolute_inv _ _ _ _ _ _ Hi)
      as [_ [[Hf ->] | [Ht (s & -> & Hs)]]].
    + split; [reflexivity | congruence].
    + split; [congruence|]. intros _. exists s. split; [reflexivity | exact Hs].
Qed.

(** *** The handler *)

Lemma handler_GET (req : Request) (up : Upstream) (k : nat) :
  method req = "GET" ->
  handler req up k =
  let ts := Number_toString (clock k) in
  let url :=
    "https://stockanalysis.com/news/__data.json?x-sveltekit-invalidated="
    ++ ts ++ "_" ++ ts in
  match fetch up with
  | (Rejected error, ab) => (onError url [] ab error, S k)
  | (Resolved response, ab) =>
      if negb (ok response)
         || negb (includes "application/json" (contentTypeOf response))
      then
        match text_error response with
        | Some error => (onError url [] ab error, S k)
        | None =>
            (mkOutcome corsHeaders 502
               (Some (JObj
                  [("error", JStr "Source blocked request");
                   ("hint",
                    JStr "Check Vercel logs for Cloudflare/challenge details")]))
               [blockedLine response] (Some url) ab, S k)
        end
      else
        match json response with
        | inl error => (onError url [] ab error, S k)
        | inr rawData =>
            match transformNewsData rawData (S k) with
            | (inl error, k2) => (onError url [] ab error, k2)
            | (inr cleaned, k2) =>
                if ToBoolean (Get cleaned "error") then
                  match Object_keys rawData with
                  | inl error => (onError url [] ab error, k2)
                  | inr keys =>
                      (mkOutcome corsHeaders 500
                         (Some (JObj
                            [("error", JStr "Data structure changed");
                             ("hint", JStr "Check transformation logic")]))
                         [[JStr "[TRANSFORM FAIL]"; Get cleaned "error";
                           JStr "Keys:"; JArr (map JStr keys)]]
                         (Some url) ab, k2)
                  end
                else
                  (mkOutcome corsHeaders 200 (Some (wire cleaned)) []
                     (Some url) ab, k2)
            end
        end
  end.
Proof.
  intros Hm. unfold handler. rewrite Hm.
  change ("GET" =? "OPTIONS")%string with false.
  change ("GET" =? "GET")%string with true.
  reflexivity.
Qed.

Lemma fetch_late (up : Upstream) :
  (forall t, settles_after up = Some t -> deadline <= t) ->
  fetch up = (Rejected AbortError, true).
Proof.
  intros H. unfold fetch. destruct (settles_after up) as [t|]; [|reflexivity].
  specialize (H t eq_refl).
  destruct (Z.ltb_spec t deadline); [lia | reflexivity].
Qed.

Lemma fetch_in_time (up : Upstream) (t : Z) :
  settles_after up = Some t -> t < deadline ->
  fetch up = (outcome up, false).
Proof.
  intros E H. unfold fetch. rewrite E.
  destruct (Z.ltb_spec t deadline); [reflexivity | lia].
Qed.

Lemma answeredAfter_GET (req : Request) (up : Upstream) :
  method req = "GET" ->
  answeredAfter req up =
  match settles_after up with
  | Some t =>
      if t <? deadline then
        match outcome up with
        | Rejected _ => Some t
        | Resolved response => option_map (Z.add t) (body_after response)
        end
      else Some deadline
  | None => Some deadline
  end.
Proof. intros Hm. unfold answeredAfter. rewrite Hm. reflexivity. Qed.

(** C4, as amended.  The deadline bounds the [fetch] call and nothing
    else.  A GET whose [fetch] has not settled when the 8000 ms timer fires:
    the handler calls [controller.abort()] and answers 504 with the body
    [{ error: "Upstream timeout" }], at the deadline.  A GET whose [fetch]
    resolves before: the timer is cleared, no abort runs, and the answer is
    sent when the reading of the body settles, however late that is and
    never when the body never arrives; it is a 504 only when that reading
    rejects with an error named [AbortError]. *)
Theorem C4_upstream_timeout (req : Request) (up : Upstream) (k : nat) :
  method req = "GET" ->
  let o := fst (handler req up k) in
  ((forall t, settles_after up = Some t -> deadline <= t) ->
   aborted o = true /\
   code o = 504 /\
   body o = Some (JObj [("error", JStr "Upstream timeout")]) /\
   answeredAfter req up = Some deadline) /\
  (forall t r,
     settles_after up = Some t -> t < deadline -> outcome up = Resolved r ->
     aborted o = false /\
     answeredAfter req up = option_map (Z.add t) (body_after r) /\
     (code o = 504 ->
      exists e, name e = "AbortError" /\
                (text_error r = Some e \/ json r = inl e))).
Proof.
  intros Hm. cbv zeta. split.
  - intros Hlate.
    rewrite (handler_GET _ _ _ Hm), (fetch_late _ Hlate),
      (answeredAfter_GET _ _ Hm).
    cbv zeta. unfold onError.
    change (name AbortError =? "AbortError")%string with true.
    repeat split.
    destruct (settles_after up) as [t|]; [|reflexivity].
    specialize (Hlate t eq_refl).
    destruct (Z.ltb_spec t deadline); [lia | reflexivity].
  - intros t r Hs Ht Ho.
    rewrite (handler_GET _ _ _ Hm), (fetch_in_time _ _ Hs Ht), Ho,
      (answeredAfter_GET _ _ Hm), Hs, Ho.
    destruct (Z.ltb_spec t deadline) as [_|]; [|lia]. cbv zeta.
    assert (forall e (j : nat),
              let o := fst (onError
                ("https://stockanalysis.com/news/__data.json?x-sveltekit-invalidated="
                   ++ Number_toString (clock k) ++ "_"
                   ++ Number_toString (clock k)) [] false e, j) in
              aborted o = false /\
              (code o = 504 -> name e = "AbortError")) as Herr.
    { intros e j. cbn [fst]. unfold onError.
      destruct (String.eqb_spec (name e) "AbortError") as [E | E];
        cbn [aborted code]; split; auto; discriminate. }
    destruct (negb (ok r) || negb (includes "application/json" (contentTypeOf r))).
    + destruct (text_error r) as [e|] eqn:Et.
      * destruct (Herr e (S k)) as [Ha Hc]. split; [exact Ha|].
        split; [reflexivity|]. intros H. exists e. auto.
      * cbn [fst aborted code]. repeat split. discriminate.
    + destruct (json r) as [e|rawData] eqn:Ej.
      * destruct (Herr e (S k)) as [Ha Hc]. split; [exact Ha|].
        split; [reflexivity|]. intros H. exists e. auto.
      * destruct (transformNewsData_returns rawData (S k))
          as (cleaned & k2 & ->).
        destruct (ToBoolean (Get cleaned "error")).
        -- destruct (Object_keys rawData) as [e|keys] eqn:Ek.
           ++ destruct (Herr e k2) as [Ha Hc]. split; [exact Ha|].
              split; [reflexivity|]. intros H. apply Hc in H.
              destruct rawData; cbn [Object_keys] in Ek; try discriminate;
                injection Ek as <-; discriminate.
           ++ cbn [fst aborted code]. repeat split. discriminate.
        -- cbn [fst aborted code]. repeat split. discriminate.
Qed.

(** C5, as amended.  A GET whose upstream reply arrives in time with a
    status outside 200..299, or with a content type that does not contain
    the text [application/json]: when the text of its body can be read the
    handler answers 502, the body is exactly the [error] and [hint] pair,
    and it has no [articles] property; when [response.text()] rejects, the
    [catch] block answers instead, 504 for an error named [AbortError] and
    500 "Service unavailable" for any other.  The answer is sent when the
    reading of the body settles. *)
Theorem C5_blocked_reply (req : Request) (up : Upstream) (r : Response)
    (t : Z) (k : nat) :
  method req = "GET" ->
  settles_after up = Some t -> t < deadline ->
  outcome up = Resolved r ->
  ok r = false \/ includes "application/json" (contentTypeOf r) = false ->
  let o := fst (handler req up k) in
  (text_error r = None ->
   code o = 502 /\
   body o = Some (JObj
     [("error", JStr "Source blocked request");
      ("hint", JStr "Check Vercel logs for Cloudflare/challenge details")]) /\
   (forall b, body o = Some b ->
      Get b "error" = JStr "Source blocked request" /\
      Get b "hint" <> JUndefined /\
      Get b "articles" = JUndefined)) /\
  (forall e, text_error r = Some e ->
     code o = (if (name e =? "AbortError")%string then 504 else 500) /\
     exists b, body o = Some b /\
       Get b "error" = JStr (if (name e =? "AbortError")%string
                             then "Upstream timeout"
                             else "Service unavailable") /\
       Get b "articles" = JUndefined) /\
  answeredAfter req up = option_map (Z.add t) (body_after r).
Proof.
  intros Hm Hs Ht Ho Hblocked.
  rewrite (handler_GET _ _ _ Hm), (fetch_in_time _ _ Hs Ht), Ho,
    (answeredAfter_GET _ _ Hm), Hs, Ho.
  destruct (Z.ltb_spec t deadline) as [_|]; [|lia].
  cbv zeta.
  assert (negb (ok r) || negb (includes "application/json" (contentTypeOf r))
          = true) as ->.
  { destruct Hblocked as [-> | ->]; [reflexivity | apply orb_true_r]. }
  split; [|split; [|reflexivity]].
  - intros ->. cbn [fst code body]. split; [reflexivity|].
    split; [reflexivity|].
    intros b Hb. injection Hb as <-.
    split; [reflexivity|]. split; [discriminate | reflexivity].
  - intros e ->. cbn [fst]. unfold onError.
    destruct (name e =? "AbortError")%string; cbn [code body];
      (split; [reflexivity|]); eexists; (split; [reflexivity|]);
      destruct isDevelopment; split; reflexivity.
Qed.

Lemma onError_other (url : string) (lg : list (list JsVal)) (ab : bool)
    (e : Exn) :
  (name e =? "AbortError")%string = false ->
  let o := onError url lg ab e in
  code o = 500 /\
  body o = Some (JObj (("error", JStr "Service unavailable")
                       :: if isDevelopment then [("debug", JStr (message e))]
                          else [])).
Proof.
  intros E. unfold onError. rewrite E. cbn [code body].
  split; [reflexivity|]. destruct isDevelopment; reflexivity.
Qed.

Lemma Object_keys_defined (v : JsVal) :
  isNullish v = false -> exists keys, Object_keys v = inr keys.
Proof. destruct v; cbn; intros H; try discriminate; eauto. Qed.

(** A 2xx JSON reply whose parsed body is not [null] and lacks the article
    array is answered 500 "Data structure changed". *)
Lemma handler_structure_changed (req : Request) (up : Upstream)
    (r : Response) (rawData : JsVal) (t : Z) (k : nat) :
  method req = "GET" ->
  settles_after up = Some t -> t < deadline ->
  outcome up = Resolved r ->
  ok r = true -> includes "application/json" (contentTypeOf r) = true ->
  json r = inr rawData ->
  isArray (articlesNode rawData) = false ->
  isNullish rawData = false ->
  let o := fst (handler req up k) in
  code o = 500 /\
  body o = Some (JObj [("error", JStr "Data structure changed");
                       ("hint", JStr "Check transformation logic")]).
Proof.
  intros Hm Hs Ht Ho Hok Hct Hj Hna Hnn.
  rewrite (handler_GET _ _ _ Hm), (fetch_in_time _ _ Hs Ht), Ho.
  cbv zeta. rewrite Hok, Hct, Hj. cbn [negb orb].
  rewrite (transformNewsData_other _ _ Hna).
  change (ToBoolean (Get (JObj _) "error")) with true. cbv iota.
  destruct (Object_keys_defined _ Hnn) as [keys ->].
  split; reflexivity.
Qed.

(** C6. At the payload [{}] the handler answers 500 "Data structure
    changed"; at the payload [null], which lacks the article array just the
    same and for which the normalizer signals the same failure, the
    diagnostic [Object.keys(rawData)] throws and the answer is 500 "Service
    unavailable" instead. *)
Theorem C6_null_payload_diverges (k : nat) :
  let empty := handler Sample.get
                 (Sample.reply 200 "application/json" (JObj [])) k in
  let null := handler Sample.get
                (Sample.reply 200 "application/json" JNull) k in
  body (fst empty) = Some (JObj [("error", JStr "Data structure changed");
                                 ("hint", JStr "Check transformation logic")]) /\
  code (fst empty) = 500 /\
  (exists cleaned,
     fst (transformNewsData JNull (S k)) = inr cleaned /\
     ToBoolean (Get cleaned "error") = true) /\
  code (fst null) = 500 /\
  (exists b, body (fst null) = Some b /\
             Get b "error" = JStr "Service unavailable" /\
             Get b "hint" = JUndefined).
Proof.
  cbv zeta.
  rewrite !(handler_GET Sample.get) by reflexivity.
  rewrite !(fetch_in_time _ 120) by reflexivity.
  cbv zeta.
  change (outcome (Sample.reply 200 "application/json" (JObj [])))
    with (Resolved (mkResponse 200 (Some "application/json") "" (inr (JObj [])) None (Some 30))).
  change (outcome (Sample.reply 200 "application/json" JNull))
    with (Resolved (mkResponse 200 (Some "application/json") "" (inr JNull) None (Some 30))).
  cbv iota.
  change (negb (ok (mkResponse 200 (Some "application/json") "" _ _ _)) ||
          negb (includes "application/json"
                  (contentTypeOf (mkResponse 200 (Some "application/json") "" _ _ _))))
    with false.
  cbv iota. cbn [json].
  rewrite !transformNewsData_other by reflexivity.
  change (ToBoolean (Get (JObj _) "error")) with true. cbv iota.
  cbn [Object_keys map fst code body].
  split; [reflexivity|]. split; [reflexivity|].
  split; [eexists; split; reflexivity|].
  pose proof (onError_other
    ("https://stockanalysis.com/news/__data.json?x-sveltekit-invalidated="
       ++ Number_toString (clock k) ++ "_" ++ Number_toString (clock k))
    [] false (TypeError "Cannot convert undefined or null to object")
    eq_refl) as [Hc Hb].
  split; [exact Hc|].
  eexists. split; [exact Hb|]. destruct isDevelopment; split; reflexivity.
Qed.

(** C10, as amended.  A GET answered in time by a 2xx JSON reply whose
    parsed body is [null]: the normalizer returns its structural-failure
    value, [Object.keys(null)] throws a [TypeError], and the client gets 500
    with [error: "Service unavailable"], never "Data structure changed";
    the body is exactly [{ error: "Service unavailable" }] unless
    [NODE_ENV] is [development], where it also carries the [debug]
    message. *)
Theorem C10_null_payload (req : Request) (up : Upstream) (r : Response)
    (t : Z) (k : nat) :
  method req = "GET" ->
  settles_after up = Some t -> t < deadline ->
  outcome up = Resolved r ->
  ok r = true -> includes "application/json" (contentTypeOf r) = true ->
  json r = inr JNull ->
  transformNewsData JNull (S k) =
    (inr (JObj [("error", JStr "Unexpected data structure");
                ("hasNodes", JBool false);
                ("nodeCount", JUndefined)]), S k) /\
  Object_keys JNull =
    inl (TypeError "Cannot convert undefined or null to object") /\
  let o := fst (handler req up k) in
  code o = 500 /\
  body o = Some (JObj
    (("error", JStr "Service unavailable")
     :: if isDevelopment
        then [("debug", JStr "Cannot convert undefined or null to object")]
        else [])).
Proof.
  intros Hm Hs Ht Ho Hok Hct Hj.
  split; [reflexivity|]. split; [reflexivity|].
  rewrite (handler_GET _ _ _ Hm), (fetch_in_time _ _ Hs Ht), Ho.
  cbv zeta. rewrite Hok, Hct, Hj. cbn [negb orb].
  rewrite transformNewsData_other by reflexivity.
  change (ToBoolean (Get (JObj _) "error")) with true. cbv iota.
  cbn [Object_keys fst].
  apply onError_other. reflexivity.
Qed.

Lemma onError_same_reply (url1 url2 : string) (lg : list (list JsVal))
    (ab : bool) (e : Exn) :
  code (onError url1 lg ab e) = code (onError url2 lg ab e) /\
  body (onError url1 lg ab e) = body (onError url2 lg ab e).
Proof.
  unfold onError. destruct (name e =? "AbortError")%string; split; reflexivity.
Qed.

(** C8, as amended.  Two invocations of the handler on the same request and
    the same upstream outcome, at any two points of the clock: when the
    identifier of every kept entry comes from its URL path (no path ends in
    a slash), the two answers have the same status and the same body up to
    [lastUpdated], so the same [articles]. *)
Theorem C8_determinism (req : Request) (up : Upstream) (k1 k2 : nat) :
  (forall r rawData,
     outcome up = Resolved r -> json r = inr rawData ->
     idsFromUrls rawData = true) ->
  let o1 := fst (handler req up k1) in
  let o2 := fst (handler req up k2) in
  code o1 = code o2 /\
  option_map (without "lastUpdated") (body o1)
  = option_map (without "lastUpdated") (body o2) /\
  option_map (fun b => Get b "articles") (body o1)
  = option_map (fun b => Get b "articles") (body o2).
Proof.
  intros Hids. cbv zeta.
  assert (forall a b : Outcome, code a = code b /\ body a = body b ->
          code a = code b /\
          option_map (without "lastUpdated") (body a)
          = option_map (without "lastUpdated") (body b) /\
          option_map (fun b => Get b "articles") (body a)
          = option_map (fun b => Get b "articles") (body b)) as Hsame.
  { intros a b [-> ->]. auto. }
  assert (forall url1 url2 ab e (j1 j2 : nat),
            code (fst (onError url1 [] ab e, j1))
            = code (fst (onError url2 [] ab e, j2)) /\
            option_map (without "lastUpdated")
              (body (fst (onError url1 [] ab e, j1)))
            = option_map (without "lastUpdated")
                (body (fst (onError url2 [] ab e, j2))) /\
            option_map (fun b => Get b "articles")
              (body (fst (onError url1 [] ab e, j1)))
            = option_map (fun b => Get b "articles")
                (body (fst (onError url2 [] ab e, j2)))) as Herr.
  { intros. cbn [fst]. apply Hsame, onError_same_reply. }
  unfold handler.
  destruct (method req =? "OPTIONS")%string;
    [apply Hsame; split; reflexivity|].
  destruct (negb (method req =? "GET")%string);
    [apply Hsame; split; reflexivity|].
  cbv zeta. unfold fetch.
  destruct (settles_after up) as [t|]; [|apply Herr].
  destruct (t <? deadline); [|apply Herr].
  destruct (outcome up) as [e|r] eqn:Eo; [apply Herr|].
  destruct (negb (ok r) || negb (includes "application/json" (contentTypeOf r)));
    [destruct (text_error r); [apply Herr | apply Hsame; split; reflexivity]|].
  destruct (json r) as [e|rawData] eqn:Ej; [apply Herr|].
  destruct (transformNewsData_readings rawData (Hids r rawData eq_refl Ej))
    as [[cleaned Hc] | [articles Hc]]; rewrite !Hc.
  - destruct (ToBoolean (Get cleaned "error"));
      [|apply Hsame; split; reflexivity].
    destruct (Object_keys rawData);
      [apply Herr | apply Hsame; split; reflexivity].
  - change (ToBoolean (Get (JObj _) "error")) with false. cbv iota.
    cbn [fst code body option_map]. repeat split.
Qed.

(* ================================================================= *)
(** ** Further properties of the three revisions *)

(** *** Strings *)

Lemma trimEnd_idempotent (s : string) : trimEnd (trimEnd s) = trimEnd s.
Proof.
  induction s as [|c r IH]; [reflexivity|]. cbn [trimEnd].
  destruct (trimEnd r) as [|c' r'] eqn:E.
  - destruct (isWhiteSpace c) eqn:Ec; [reflexivity|].
    cbn [trimEnd]. rewrite Ec. reflexivity.
  - cbn [trimEnd] in IH |- *. rewrite IH. reflexivity.
Qed.

Lemma trimStart_clean (s : string) :
  match trimStart s with
  | EmptyString => True
  | String c _ => isWhiteSpace c = false
  end.
Proof.
  induction s as [|c r IH]; [exact I|]. cbn [trimStart].
  destruct (isWhiteSpace c) eqn:E; [exact IH | exact E].
Qed.

Lemma trimStart_trimEnd (s : string) :
  match s with
  | EmptyString => True
  | String c _ => isWhiteSpace c = false
  end ->
  trimStart (trimEnd s) = trimEnd s.
Proof.
  destruct s as [|c r]; [reflexivity|]. intros Hc. cbn [trimEnd].
  destruct (trimEnd r); rewrite ?Hc; cbn [trimStart]; rewrite Hc; reflexivity.
Qed.

(** Trimming a trimmed string changes nothing. *)
Lemma trim_idempotent (s : string) : trim (trim s) = trim s.
Proof.
  unfold trim. rewrite (trimStart_trimEnd _ (trimStart_clean s)).
  apply trimEnd_idempotent.
Qed.

Lemma split_cons (sep : ascii) (s : string) :
  exists seg segs, split sep s = seg :: segs.
Proof.
  destruct s as [|c r]; cbn [split]; [eauto|].
  destruct (Ascii.eqb c sep); [eauto|]. destruct (split sep r); eauto.
Qed.

(** The last segment holds no separator. *)
Lemma pop_split_no_separator (sep : ascii) (s : string) :
  hasChar sep (pop (split sep s)) = false.
Proof.
  unfold pop. induction s as [|c r IH]; [reflexivity|]. cbn [split].
  destruct (split_cons sep r) as (seg & segs & E). rewrite E in *.
  destruct (Ascii.eqb c sep) eqn:Ec.
  - exact IH.
  - destruct segs as [|s2 rest]; [|exact IH].
    cbn [last hasChar] in *. rewrite Ec, IH. reflexivity.
Qed.

(** The string is what precedes its last segment, then that segment; what
    precedes is empty when there is one segment, and ends with the
    separator otherwise. *)
Lemma pop_split_suffix (sep : ascii) (s : string) :
  exists pre,
    s = pre ++ pop (split sep s) /\
    (List.length (split sep s) = 1%nat -> pre = "") /\
    (List.length (split sep s) <> 1%nat ->
     exists q, pre = q ++ String sep "").
Proof.
  unfold pop. induction s as [|c r (pre & Hr & H1 & Hn)].
  - exists "". repeat split. intros H. exfalso. apply H. reflexivity.
  - cbn [split]. destruct (split_cons sep r) as (seg & segs & E).
    rewrite E in *. destruct (Ascii.eqb_spec c sep) as [-> | Hc].
    + exists (String sep pre). cbn [last]. split; [|split].
      * destruct segs; cbn [append]; f_equal; exact Hr.
      * cbn [List.length]. discriminate.
      * intros _. destruct segs as [|s2 rest].
        -- rewrite (H1 eq_refl). exists "". reflexivity.
        -- destruct Hn as [q ->]; [cbn [List.length]; discriminate|].
           exists (String sep q). reflexivity.
    + destruct segs as [|s2 rest].
      * exists "". cbn [last List.length] in *.
        rewrite (H1 eq_refl) in Hr. cbn [append] in *.
        split; [f_equal; exact Hr|]. split; [reflexivity|].
        intros H. exfalso. apply H. reflexivity.
      * exists (String c pre). cbn [last List.length append] in *.
        split; [f_equal; exact Hr|]. split; [discriminate|].
        intros _. destruct Hn as [q ->]; [discriminate|].
        exists (String c q). reflexivity.
Qed.

Lemma substring0_length (n : nat) (s : string) :
  (String.length (substring0 n s) <= n)%nat.
Proof.
  unfold substring0. revert s. induction n as [|n IH]; intros [|c r];
    cbn [String.substring String.length]; try lia.
  specialize (IH r). lia.
Qed.

Lemma substring0_substring0 (n m : nat) (s : string) :
  (n <= m)%nat -> substring0 n (substring0 m s) = substring0 n s.
Proof.
  unfold substring0. revert m s. induction n as [|n IH]; intros m s H.
  - destruct (String.substring 0 m s), s; reflexivity.
  - destruct m as [|m]; [lia|]. destruct s as [|c r]; [reflexivity|].
    cbn [String.substring]. f_equal. apply IH. lia.
Qed.

Lemma substring0_prefix (n : nat) (s : string) :
  String.prefix (substring0 n s) s = true.
Proof.
  unfold substring0. revert s. induction n as [|n IH]; intros [|c r];
    try reflexivity.
  cbn [String.substring String.prefix].
  destruct (ascii_dec c c) as [_|N]; [apply IH | contradiction].
Qed.

(** *** What is sent is what was built *)

Lemma wire_fixed_elements (l : list JsVal) :
  Forall (fun x => wire x = x /\ x <> JUndefined) l ->
  map (fun x => match x with JUndefined => JNull | _ => wire x end) l = l.
Proof.
  induction 1 as [|x l [Hw Hx] _ IH]; [reflexivity|].
  cbn [map]. rewrite IH. f_equal. destruct x; try exact Hw. contradiction.
Qed.

Lemma articlePublishedAt_value (item : JsVal) (k : nat) (p : JsVal)
    (k' : nat) :
  articlePublishedAt item k = (inr p, k') ->
  p = JNull \/ exists iso, p = JStr iso.
Proof.
  unfold articlePublishedAt, bind.
  destruct (ToBoolean (Get item "d")).
  - destruct (ToNumber (Get item "d") k) as [[e|n] k1]; [discriminate|].
    destruct (TimeClip (times1000 n)); [|discriminate].
    intros H. injection H as <- _. eauto.
  - intros H. injection H as <- _. auto.
Qed.

Lemma mapArticle_wire (item : JsVal) (k : nat) (a : JsVal) (k' : nat) :
  mapArticle item k = (inr a, k') -> wire a = a /\ a <> JUndefined.
Proof.
  intros H.
  apply mapArticle_inv in H as (id & t & u & s & p & _ & _ & _ & Hp & ->).
  split; [|discriminate].
  apply articlePublishedAt_value in Hp as [-> | [iso ->]]; reflexivity.
Qed.

(** *** The normalizer *)

(** The two results of the normalizer, on any input. *)
Lemma transformNewsData_shape (data : JsVal) (k : nat) :
  exists cleaned k',
    transformNewsData data k = (inr cleaned, k') /\
    ((exists articles,
        cleaned = JObj [("success", JBool true);
                        ("count", JNum (Z.of_nat (List.length articles)));
                        ("lastUpdated", JStr (toISOString (clock (pred k'))));
                        ("articles", JArr articles)] /\
        Forall (fun a => exists item k1 k2,
                  mapArticle item k1 = (inr a, k2)) articles) \/
     (exists msg rest,
        cleaned = JObj (("error", JStr msg) :: rest) /\ msg <> "" /\
        lookup "articles" rest = JUndefined /\
        lookup "success" rest = JUndefined)).
Proof.
  destruct (articlesNode data) as [| | | | |node|] eqn:E;
    try (rewrite transformNewsData_other by (rewrite E; reflexivity);
         eexists _, _; split; [reflexivity|]; right;
         eexists _, _; split; [reflexivity|]; split; [discriminate|];
         split; reflexivity).
  rewrite (transformNewsData_array _ _ _ E).
  destruct (mapM mapArticle (filter keeps node) k) as [[e|arts] j] eqn:Em.
  - eexists _, _. split; [reflexivity|]. right. exists (message e), [].
    split; [reflexivity|]. split; [|split; reflexivity].
    destruct (mapM_error _ _ _ _ _ Em) as (x & k1 & k2 & _ & Hx).
    exact (mapArticle_message _ _ _ _ Hx).
  - eexists _, _. split; [reflexivity|]. left. exists arts.
    split; [reflexivity|]. apply mapM_inv in Em.
    apply Forall_forall. intros a Hin.
    destruct (Forall2_In_r _ _ _ _ Em Hin) as (item & _ & k1 & k2 & Hx).
    eauto.
Qed.

(** The normalizer returns on every input, and what it returns is one of
    two envelopes: a success with its articles and their count, or an
    error with a non-empty message and neither [articles] nor [success].
    So the handler's test of [cleaned.error] tells them apart. *)
Theorem transformNewsData_envelope (data : JsVal) (k : nat) :
  exists cleaned k',
    transformNewsData data k = (inr cleaned, k') /\
    (Get cleaned "error" = JUndefined /\
     Get cleaned "success" = JBool true /\
     (exists articles,
        Get cleaned "articles" = JArr articles /\
        Get cleaned "count" = JNum (Z.of_nat (List.length articles)))
     \/
     ToBoolean (Get cleaned "error") = true /\
     isString (Get cleaned "error") = true /\
     Get cleaned "articles" = JUndefined /\
     Get cleaned "success" = JUndefined).
Proof.
  destruct (transformNewsData_shape data k)
    as (cleaned & k' & H & [(arts & -> & _) | (msg & rest & -> & Hm & Ha & Hs)]).
  - eexists. exists k'. split; [exact H|]. left.
    split; [reflexivity|]. split; [reflexivity|]. exists arts.
    split; reflexivity.
  - eexists. exists k'. split; [exact H|]. right.
    cbn [Get lookup String.eqb Ascii.eqb Bool.eqb ToBoolean isString].
    repeat split; auto.
    destruct (msg =? "")%string eqn:Em; [|reflexivity].
    apply String.eqb_eq in Em. contradiction.
Qed.

(** When the article list is not where it is expected the normalizer reads
    no clock and reports what it found: whether the payload has [nodes],
    and how many when they are an array. *)
Theorem transformNewsData_diagnostics (data : JsVal) (k : nat) :
  isArray (articlesNode data) = false ->
  exists hasNodes nodeCount,
    transformNewsData data k =
    (inr (JObj [("error", JStr "Unexpected data structure");
                ("hasNodes", JBool hasNodes);
                ("nodeCount", nodeCount)]), k) /\
    (forall nodes, Get data "nodes" = JArr nodes ->
       hasNodes = true /\ nodeCount = JNum (Z.of_nat (List.length nodes))) /\
    (isNullish (Get data "nodes") = true ->
       hasNodes = false /\ nodeCount = JUndefined).
Proof.
  intros H. rewrite (transformNewsData_other _ _ H).
  eexists _, _. split; [reflexivity|]. rewrite !GetOpt_Get. split.
  - intros nodes ->. split; reflexivity.
  - destruct (Get data "nodes"); try discriminate; intros _; split;
      reflexivity.
Qed.

Lemma mapM_succeeds {A B : Type} (f : A -> M B) (xs : list A) :
  Forall (fun x => forall k, exists y k', f x k = (inr y, k')) xs ->
  forall k, exists ys k',
    mapM f xs k = (inr ys, k') /\ List.length ys = List.length xs.
Proof.
  induction 1 as [|x xs Hx _ IH]; intros k.
  - exists [], k. split; reflexivity.
  - destruct (Hx k) as (y & k1 & Ey). destruct (IH k1) as (ys & k2 & Eys & L).
    exists (y :: ys), k2. cbn [mapM]. unfold bind. rewrite Ey, Eys.
    split; [reflexivity|]. cbn [List.length]. f_equal. exact L.
Qed.

Lemma mapArticle_wellTyped (item : JsVal) (k : nat) :
  wellTyped item = true -> exists a k', mapArticle item k = (inr a, k').
Proof.
  unfold wellTyped. intros H.
  apply andb_true_iff in H as [H Hd]. apply andb_true_iff in H as [H Hs].
  apply andb_true_iff in H as [Ht Hu].
  unfold mapArticle, bind, articleId, articleTitle, articleSummary.
  destruct (Get item "u") as [| | | |u| |]; try discriminate.
  destruct (Get item "t") as [| | | |t| |]; try discriminate.
  assert (exists summary, JS.or (Get item "s") (JStr "") = JStr summary)
    as [summary Es].
  { unfold JS.or. destruct (ToBoolean (Get item "s")); [|eauto].
    cbn [negb orb] in Hs. destruct (Get item "s"); try discriminate. eauto. }
  assert (exists p, forall j, articlePublishedAt item j = (inr p, j))
    as [p Ep].
  { unfold articlePublishedAt, bind.
    destruct (Get item "d") as [| |b|z| | |]; try discriminate;
      try (exists JNull; reflexivity).
    - destruct b; cbn [ToBoolean ToNumber ret times1000 TimeClip];
        eexists; intros j; reflexivity.
    - cbn [ToBoolean ToNumber ret times1000 TimeClip].
      destruct (z =? 0); cbn [negb orb] in *;
        [exists JNull; reflexivity|].
      rewrite Hd. eexists; intros j; reflexivity. }
  destruct (pop (split "/" u) =? "")%string;
    cbn [ret Date_now bind]; rewrite Es; cbn [ret]; rewrite Ep;
    eexists _, _; reflexivity.
Qed.

(** On a payload whose kept entries are all well typed the normalizer
    succeeds: it emits one Article per kept entry, in the order of the
    payload, and [count] is the number of kept entries. *)
Theorem transformNewsData_complete (data : JsVal) (node : list JsVal)
    (k : nat) :
  articlesNode data = JArr node ->
  forallb wellTyped (filter keeps node) = true ->
  exists articles k',
    transformNewsData data k =
    (inr (JObj [("success", JBool true);
                ("count", JNum (Z.of_nat (List.length (filter keeps node))));
                ("lastUpdated", JStr (toISOString (clock k')));
                ("articles", JArr articles)]), S k') /\
    List.length articles = List.length (filter keeps node) /\
    Forall2 (fun item a =>
       exists u, Get item "u" = JStr u /\ Get a "url" = JStr (origin ++ u))
      (filter keeps node) articles.
Proof.
  intros E Hw. rewrite forallb_forall in Hw.
  destruct (mapM_succeeds mapArticle (filter keeps node)) with (k := k)
    as (arts & k' & Em & L).
  { apply Forall_forall. intros x Hx j. apply mapArticle_wellTyped. auto. }
  exists arts, k'. rewrite (transformNewsData_array _ _ _ E), Em.
  split; [rewrite L; reflexivity|]. split; [exact L|].
  apply mapM_inv in Em. revert Em. apply Forall2_impl.
  intros item a (k1 & k2 & Hx).
  apply mapArticle_inv in Hx as (id & t & u & s & p & _ & Hu & _ & _ & ->).
  exists u. split; [exact Hu | reflexivity].
Qed.

(** The identifier of an Article is the part of the URL path after its last
    slash: it holds no slash and the path, hence the [url], ends with it.
    Only when that part is empty (the path ends with a slash) is the
    identifier the clock reading. *)
Theorem mapArticle_id (item : JsVal) (k : nat) (a : JsVal) (k' : nat) :
  mapArticle item k = (inr a, k') ->
  exists u id,
    Get item "u" = JStr u /\
    Get a "id" = JStr id /\
    Get a "url" = JStr (origin ++ u) /\
    (id <> "" /\ hasChar "/" id = false /\ k' = k /\
     (exists pre, u = pre ++ id /\ (pre = "" \/ exists q, pre = q ++ "/"))
     \/
     (u = "" \/ exists q, u = q ++ "/") /\
     id = Number_toString (clock k) /\ k' = S k).
Proof.
  intros H.
  apply mapArticle_inv in H as (id & t & u & s & p & _ & Hu & Hid & _ & ->).
  exists u, id. split; [exact Hu|]. split; [reflexivity|].
  split; [reflexivity|].
  apply articleId_inv in Hid as (u' & Hu' & Hcase).
  rewrite Hu in Hu'. injection Hu' as <-.
  destruct (pop_split_suffix "/" u) as (pre & Hpre & H1 & Hn).
  destruct (pop (split "/" u) =? "")%string eqn:Es.
  - right. destruct Hcase as [-> ->]. split; [|split; reflexivity].
    apply String.eqb_eq in Es. rewrite Es in Hpre.
    destruct (Nat.eq_dec (List.length (split "/" u)) 1) as [L | L].
    + left. rewrite (H1 L) in Hpre. exact Hpre.
    + right. destruct (Hn L) as [q Hq]. exists q. rewrite Hpre, Hq.
      clear. induction q as [|c q IH]; [reflexivity|].
      cbn [append]. f_equal. exact IH.
  - left. destruct Hcase as [-> ->]. apply String.eqb_neq in Es.
    split; [exact Es|]. split; [apply pop_split_no_separator|].
    split; [reflexivity|]. exists pre. split; [exact Hpre|].
    destruct (Nat.eq_dec (List.length (split "/" u)) 1) as [L | L];
      [left; auto | right; auto].
Qed.

(** The [title] and the [summary] of an Article are strings with no white
    space at either end. *)
Theorem mapArticle_trimmed (item : JsVal) (k : nat) (a : JsVal) (k' : nat) :
  mapArticle item k = (inr a, k') ->
  exists title summary,
    Get a "title" = JStr title /\ trim title = title /\
    Get a "summary" = JStr summary /\ trim summary = summary.
Proof.
  unfold mapArticle, bind. intros H.
  destruct (articleId item k) as [[e|id] k1]; [discriminate|].
  destruct (articleTitle item k1) as [[e|title] k2] eqn:Et; [discriminate|].
  destruct (articleSummary item k2) as [[e|summary] k3] eqn:Es;
    [discriminate|].
  destruct (articlePublishedAt item k3) as [[e|p] k4]; [discriminate|].
  injection H as <- _. exists title, summary.
  apply articleTitle_inv in Et as (t & _ & -> & _).
  unfold articleSummary in Es.
  destruct (JS.or (Get item "s") (JStr "")); try discriminate.
  injection Es as <- _.
  repeat split; apply trim_idempotent.
Qed.

(** *** The handler with the deadline *)

Lemma fetch_resolved (up : Upstream) (r : Response) (ab : bool) :
  fetch up = (Resolved r, ab) <->
  (exists t, settles_after up = Some t /\ t < deadline) /\
  outcome up = Resolved r /\ ab = false.
Proof.
  unfold fetch. destruct (settles_after up) as [t|].
  - destruct (Z.ltb_spec t deadline) as [Hin | Hout].
    + split.
      * intros Hf. injection Hf as -> <-. eauto.
      * intros (_ & -> & ->). reflexivity.
    + split; [discriminate|]. intros ((t' & Ht & Hlt) & _).
      injection Ht as <-. lia.
  - split; [discriminate|]. intros ((t' & Ht & _) & _). discriminate.
Qed.

Lemma success_wire (articles : list JsVal) (iso : string) :
  Forall (fun a => exists item k1 k2, mapArticle item k1 = (inr a, k2))
         articles ->
  wire (JObj [("success", JBool true);
              ("count", JNum (Z.of_nat (List.length articles)));
              ("lastUpdated", JStr iso);
              ("articles", JArr articles)])
  = JObj [("success", JBool true);
          ("count", JNum (Z.of_nat (List.length articles)));
          ("lastUpdated", JStr iso);
          ("articles", JArr articles)].
Proof.
  intros H. cbn [wire]. rewrite wire_fixed_elements; [reflexivity|].
  revert H. apply Forall_impl. intros a (item & k1 & k2 & Hx).
  exact (mapArticle_wire _ _ _ _ Hx).
Qed.

(** The answers of the handler to a GET, path by path. *)
Lemma handler_GET_paths (req : Request) (up : Upstream) (k : nat) :
  method req = "GET" ->
  exists url,
    (exists e ab,
       fetch up = (Rejected e, ab) /\
       handler req up k = (onError url [] ab e, S k)) \/
    (exists r,
       fetch up = (Resolved r, false) /\
       negb (ok r) || negb (includes "application/json" (contentTypeOf r))
       = true /\
       text_error r = None /\
       handler req up k =
       (mkOutcome corsHeaders 502
          (Some (JObj
             [("error", JStr "Source blocked request");
              ("hint",
               JStr "Check Vercel logs for Cloudflare/challenge details")]))
          [blockedLine r] (Some url) false, S k)) \/
    (exists r e,
       fetch up = (Resolved r, false) /\
       (negb (ok r) || negb (includes "application/json" (contentTypeOf r))
        = true /\ text_error r = Some e
        \/
        negb (ok r) || negb (includes "application/json" (contentTypeOf r))
        = false /\ json r = inl e) /\
       handler req up k = (onError url [] false e, S k)) \/
    (exists r rawData msg rest k2,
       fetch up = (Resolved r, false) /\
       negb (ok r) || negb (includes "application/json" (contentTypeOf r))
       = false /\
       json r = inr rawData /\
       transformNewsData rawData (S k)
       = (inr (JObj (("error", JStr msg) :: rest)), k2) /\
       msg <> "" /\
       (isNullish rawData = true /\
        handler req up k =
        (onError url [] false
           (TypeError "Cannot convert undefined or null to object"), k2)
        \/
        isNullish rawData = false /\
        exists keys,
          handler req up k =
          (mkOutcome corsHeaders 500
             (Some (JObj [("error", JStr "Data structure changed");
                          ("hint", JStr "Check transformation logic")]))
             [[JStr "[TRANSFORM FAIL]"; JStr msg; JStr "Keys:";
               JArr (map JStr keys)]]
             (Some url) false, k2))) \/
    (exists r rawData articles k2,
       fetch up = (Resolved r, false) /\
       negb (ok r) || negb (includes "application/json" (contentTypeOf r))
       = false /\
       json r = inr rawData /\
       transformNewsData rawData (S k)
       = (inr (JObj [("success", JBool true);
                     ("count", JNum (Z.of_nat (List.length articles)));
                     ("lastUpdated", JStr (toISOString (clock (pred k2))));
                     ("articles", JArr articles)]), k2) /\
       handler req up k =
       (mkOutcome corsHeaders 200
          (Some (JObj [("success", JBool true);
                       ("count", JNum (Z.of_nat (List.length articles)));
                       ("lastUpdated", JStr (toISOString (clock (pred k2))));
                       ("articles", JArr articles)]))
          [] (Some url) false, k2)).
Proof.
  intros Hm. rewrite (handler_GET _ _ _ Hm). cbv zeta.
  eexists.
  destruct (fetch up) as [[e|r] ab] eqn:Ef.
  { left. exists e, ab. split; reflexivity. }
  pose proof Ef as Ef'. apply fetch_resolved in Ef' as (_ & _ & ->).
  right.
  destruct (negb (ok r) || negb (includes "application/json" (contentTypeOf r)))
    eqn:Eb.
  { destruct (text_error r) as [e|] eqn:Ete.
    - right. left. exists r, e. repeat split; auto.
    - left. exists r. repeat split; auto. }
  right.
  destruct (json r) as [e|rawData] eqn:Ej.
  { left. exists r, e. repeat split; auto. }
  right.
  destruct (transformNewsData_shape rawData (S k))
    as (cleaned & k2 & Et & [(arts & -> & Hall) | (msg & rest & -> & Hmsg & _)]);
    rewrite Et.
  - right. exists r, rawData, arts, k2.
    change (ToBoolean (Get (JObj _) "error")) with false. cbv iota.
    rewrite (success_wire _ _ Hall). repeat split; auto.
  - left. exists r, rawData, msg, rest, k2.
    split; [reflexivity|]. split; [exact Eb|]. split; [exact Ej|].
    split; [exact Et|]. split; [exact Hmsg|].
    cbn [Get lookup String.eqb Ascii.eqb Bool.eqb ToBoolean].
    destruct (msg =? "")%string eqn:Em;
      [apply String.eqb_eq in Em; contradiction|].
    cbn [negb].
    destruct rawData; cbn [Object_keys isNullish];
      try (left; split; reflexivity);
      right; (split; [reflexivity|]); eexists; reflexivity.
Qed.

Lemma onError_cases (url : string) (ab : bool) (e : Exn) :
  let o := onError url [] ab e in
  headers o = corsHeaders /\ aborted o = ab /\ fetched o = Some url /\
  List.length (log o) = 1%nat /\
  ((name e =? "AbortError")%string = true /\ code o = 504 /\
   body o = Some (JObj [("error", JStr "Upstream timeout")])
   \/
   (name e =? "AbortError")%string = false /\ code o = 500 /\
   body o = Some (JObj (("error", JStr "Service unavailable")
                        :: if isDevelopment
                           then [("debug", JStr (message e))]
                           else []))).
Proof.
  unfold onError. destruct (name e =? "AbortError")%string;
    cbn [headers aborted fetched log code body];
    repeat split; [left | right]; repeat split.
  destruct isDevelopment; reflexivity.
Qed.

Ltac onError_split :=
  match goal with
  | |- context [onError ?u [] ?a ?x] =>
      let Hh := fresh "Hh" in
      let Ha := fresh "Ha" in
      let Hf := fresh "Hf" in
      let Hl := fresh "Hl" in
      let Hn := fresh "Hn" in
      let Hc := fresh "Hc" in
      let Hb := fresh "Hb" in
      destruct (onError_cases u a x)
        as (Hh & Ha & Hf & Hl & [(Hn & Hc & Hb) | (Hn & Hc & Hb)]);
      rewrite ?Hh, ?Ha, ?Hf, ?Hl, ?Hc, ?Hb
  end.

(** A request that is not a GET makes no outbound call, reads no clock and
    logs nothing: an OPTIONS is answered 200 without a body, whatever the
    upstream would do, and any other method 405.  The method is compared as
    it is written. *)
Lemma handler_not_GET (req : Request) (up : Upstream) (k : nat) :
  method req <> "GET" ->
  let o := fst (handler req up k) in
  snd (handler req up k) = k /\
  fetched o = None /\ log o = [] /\ aborted o = false /\
  headers o = corsHeaders /\
  (method req = "OPTIONS" -> code o = 200 /\ body o = None) /\
  (method req <> "OPTIONS" ->
   code o = 405 /\ body o = Some (JObj [("error", JStr "Only GET allowed")])).
Proof.
  intros Hm. unfold handler.
  destruct (String.eqb_spec (method req) "OPTIONS") as [Ho | Ho].
  - cbn. repeat split; intros; contradiction.
  - destruct (String.eqb_spec (method req) "GET") as [Hg | _];
      [contradiction|].
    cbn. repeat split; intros; contradiction.
Qed.

(** A request that is not a GET is answered without an outbound call, a
    clock reading, a log line or an abort: 200 without a body to an OPTIONS,
    whatever the upstream would do, and 405 to any other method, compared
    as it is written. *)
Theorem handler_other_methods (req : Request) (up : Upstream) (k : nat) :
  method req <> "GET" ->
  let o := fst (handler req up k) in
  snd (handler req up k) = k /\
  fetched o = None /\ log o = [] /\ aborted o = false /\
  headers o = corsHeaders /\
  (method req = "OPTIONS" -> code o = 200 /\ body o = None) /\
  (method req <> "OPTIONS" ->
   code o = 405 /\ body o = Some (JObj [("error", JStr "Only GET allowed")])).
Proof. exact (handler_not_GET req up k). Qed.

(** Every answer carries the four CORS and cache headers, its status is one
    of 200, 405, 500, 502 and 504, and it has a body unless the request is
    an OPTIONS. *)
Theorem handler_reply_invariant (req : Request) (up : Upstream) (k : nat) :
  let o := fst (handler req up k) in
  headers o = corsHeaders /\
  In (code o) [200; 405; 500; 502; 504] /\
  (body o = None <-> method req = "OPTIONS").
Proof.
  cbv zeta.
  destruct (String.eqb_spec (method req) "GET") as [Hg | Hg].
  - assert (method req <> "OPTIONS") as Hno by (rewrite Hg; discriminate).
    destruct (handler_GET_paths req up k Hg) as (url & Hp).
    destruct Hp as [(e & ab & _ & ->) |
                   [(r & _ & _ & _ & ->) |
                   [(r & e & _ & _ & ->) |
                   [(r & d & msg & rest & k2 & _ & _ & _ & _ & _ &
                     [[_ ->] | [_ [keys ->]]]) |
                    (r & d & arts & k2 & _ & _ & _ & _ & ->)]]]];
      cbn [fst];
      try onError_split;
      cbn [headers code body];
      (split; [reflexivity|]); (split; [cbn; tauto|]);
      (split; [discriminate | intros; contradiction]).
  - destruct (handler_not_GET req up k Hg)
      as (_ & _ & _ & _ & Hh & Ho & Hn).
    split; [exact Hh|].
    destruct (String.eqb_spec (method req) "OPTIONS") as [E | E].
    + destruct (Ho E) as [-> ->]. split; [cbn; tauto|]. tauto.
    + destruct (Hn E) as [-> ->]. split; [cbn; tauto|].
      split; [discriminate | intros; contradiction].
Qed.

(** Exactly one shape is sent.  A body with status 200 is the success
    envelope: no [error], [success] true, an [articles] array and its
    length as [count].  A body with any other status has a non-empty
    [error] string and no [articles]. *)
Theorem handler_one_shape (req : Request) (up : Upstream) (k : nat)
    (b : JsVal) :
  body (fst (handler req up k)) = Some b ->
  code (fst (handler req up k)) = 200 /\
  Get b "error" = JUndefined /\
  Get b "success" = JBool true /\
  (exists articles,
     Get b "articles" = JArr articles /\
     Get b "count" = JNum (Z.of_nat (List.length articles)))
  \/
  code (fst (handler req up k)) <> 200 /\
  Get b "articles" = JUndefined /\
  Get b "success" = JUndefined /\
  exists msg, Get b "error" = JStr msg /\ msg <> "".
Proof.
  destruct (String.eqb_spec (method req) "GET") as [Hg | Hg].
  - destruct (handler_GET_paths req up k Hg) as (url & Hp).
    destruct Hp as [(e & ab & _ & ->) |
                   [(r & _ & _ & _ & ->) |
                   [(r & e & _ & _ & ->) |
                   [(r & d & msg & rest & k2 & _ & _ & _ & _ & _ &
                     [[_ ->] | [_ [keys ->]]]) |
                    (r & d & arts & k2 & _ & _ & _ & _ & ->)]]]];
      cbn [fst];
      try onError_split;
      cbn [code body]; intros Hbody; injection Hbody as <-;
      try (right; (split; [discriminate|]);
           destruct isDevelopment;
           (split; [reflexivity|]); (split; [reflexivity|]);
           eexists; (split; [reflexivity | discriminate])).
    left. split; [reflexivity|]. split; [reflexivity|].
    split; [reflexivity|]. exists arts. split; reflexivity.
  - destruct (handler_not_GET req up k Hg)
      as (_ & _ & _ & _ & _ & Ho & Hn).
    destruct (String.eqb_spec (method req) "OPTIONS") as [E | E].
    + destruct (Ho E) as [_ ->]. discriminate.
    + destruct (Hn E) as [-> ->]. intros Hbody. injection Hbody as <-.
      right. split; [discriminate|]. split; [reflexivity|].
      split; [reflexivity|]. eexists. split; [reflexivity | discriminate].
Qed.

Lemma not_blocked (r : Response) :
  negb (ok r) || negb (includes "application/json" (contentTypeOf r)) = false
  <-> ok r = true /\ includes "application/json" (contentTypeOf r) = true.
Proof.
  destruct (ok r), (includes "application/json" (contentTypeOf r)); cbn;
    intuition discriminate.
Qed.

(** The status is 200 exactly for an OPTIONS, and for a GET whose upstream
    reply arrives before the deadline, is 2xx, is labelled
    [application/json], parses, and is normalized without an [error]. *)
Theorem handler_200_iff (req : Request) (up : Upstream) (k : nat) :
  code (fst (handler req up k)) = 200 <->
  method req = "OPTIONS" \/
  method req = "GET" /\
  exists t r rawData cleaned k',
    settles_after up = Some t /\ t < deadline /\
    outcome up = Resolved r /\
    ok r = true /\ includes "application/json" (contentTypeOf r) = true /\
    json r = inr rawData /\
    transformNewsData rawData (S k) = (inr cleaned, k') /\
    Get cleaned "error" = JUndefined.
Proof.
  split.
  - destruct (String.eqb_spec (method req) "GET") as [Hg | Hg].
    + destruct (handler_GET_paths req up k Hg) as (url & Hp).
      destruct Hp as [(e & ab & _ & ->) |
                     [(r & _ & _ & _ & ->) |
                     [(r & e & _ & _ & ->) |
                     [(r & d & msg & rest & k2 & _ & _ & _ & _ & _ &
                       [[_ ->] | [_ [keys ->]]]) |
                      (r & d & arts & k2 & Hf & Hb & Hj & Ht & ->)]]]];
        cbn [fst]; try onError_split; cbn [code]; try discriminate.
      intros _. right. split; [exact Hg|].
      apply fetch_resolved in Hf as ((t & Hs & Hlt) & Ho & _).
      apply not_blocked in Hb as [Hok Hct].
      exists t, r, d. eexists. exists k2. repeat split; eauto.
    + destruct (handler_not_GET req up k Hg)
        as (_ & _ & _ & _ & _ & Ho & Hn).
      destruct (String.eqb_spec (method req) "OPTIONS") as [E | E];
        [auto|]. destruct (Hn E) as [-> _]. discriminate.
  - intros [Ho | (Hg & t & r & d & cleaned & k' & Hs & Hlt & Hout & Hok & Hct
                  & Hj & Ht & He)].
    + apply handler_not_GET; [rewrite Ho; discriminate | exact Ho].
    + rewrite (handler_GET _ _ _ Hg), (fetch_in_time _ _ Hs Hlt), Hout.
      cbv zeta. rewrite Hok, Hct, Hj, Ht, He. reflexivity.
Qed.

(** On that path nothing is lost between the normalizer and the client:
    the body is the envelope the normalizer returned, nothing is logged and
    no abort runs. *)
Theorem handler_success_body (req : Request) (up : Upstream) (t : Z)
    (r : Response) (rawData cleaned : JsVal) (k k' : nat) :
  method req = "GET" ->
  settles_after up = Some t -> t < deadline ->
  outcome up = Resolved r ->
  ok r = true -> includes "application/json" (contentTypeOf r) = true ->
  json r = inr rawData ->
  transformNewsData rawData (S k) = (inr cleaned, k') ->
  Get cleaned "error" = JUndefined ->
  handler req up k =
  (mkOutcome corsHeaders 200 (Some cleaned) []
     (Some ("https://stockanalysis.com/news/__data.json?x-sveltekit-invalidated="
            ++ Number_toString (clock k) ++ "_" ++ Number_toString (clock k)))
     false, k').
Proof.
  intros Hg Hs Hlt Hout Hok Hct Hj Ht He.
  rewrite (handler_GET _ _ _ Hg), (fetch_in_time _ _ Hs Hlt), Hout.
  cbv zeta. rewrite Hok, Hct, Hj, Ht, He. cbn [negb orb ToBoolean].
  destruct (transformNewsData_shape rawData (S k))
    as (c & j & Ht' & [(arts & -> & Hall) | (msg & rest & -> & _)]);
    rewrite Ht in Ht'; injection Ht' as -> ->.
  - rewrite (success_wire _ _ Hall). reflexivity.
  - discriminate.
Qed.

(** Outside development mode a failure is answered with one of five fixed
    bodies: no text of an exception or of the upstream reaches the
    client. *)
Theorem handler_production_bodies (req : Request) (up : Upstream) (k : nat) :
  isDevelopment = false ->
  code (fst (handler req up k)) <> 200 ->
  In (body (fst (handler req up k)))
     [Some (JObj [("error", JStr "Only GET allowed")]);
      Some (JObj [("error", JStr "Upstream timeout")]);
      Some (JObj [("error", JStr "Source blocked request");
                  ("hint",
                   JStr "Check Vercel logs for Cloudflare/challenge details")]);
      Some (JObj [("error", JStr "Data structure changed");
                  ("hint", JStr "Check transformation logic")]);
      Some (JObj [("error", JStr "Service unavailable")])].
Proof.
  intros Hdev.
  destruct (String.eqb_spec (method req) "GET") as [Hg | Hg].
  - destruct (handler_GET_paths req up k Hg) as (url & Hp).
    destruct Hp as [(e & ab & _ & ->) |
                   [(r & _ & _ & _ & ->) |
                   [(r & e & _ & _ & ->) |
                   [(r & d & msg & rest & k2 & _ & _ & _ & _ & _ &
                     [[_ ->] | [_ [keys ->]]]) |
                    (r & d & arts & k2 & _ & _ & _ & _ & ->)]]]];
      cbn [fst]; try onError_split; rewrite ?Hdev; cbn [code body];
      intros Hcode; cbn [In]; tauto.
  - destruct (handler_not_GET req up k Hg)
      as (_ & _ & _ & _ & _ & Ho & Hn).
    destruct (String.eqb_spec (method req) "OPTIONS") as [E | E].
    + destruct (Ho E) as [-> _]. contradiction.
    + destruct (Hn E) as [_ ->]. intros _. left. reflexivity.
Qed.

(** What is thrown inside the [try] is classified by its name alone: a
    rejection of the outbound call, or of the parsing of a 2xx JSON reply,
    that arrives before the deadline is answered 504 when the error is
    named [AbortError] and 500 otherwise, and no abort has run. *)
Theorem handler_thrown (req : Request) (up : Upstream) (t : Z) (e : Exn)
    (k : nat) :
  method req = "GET" ->
  settles_after up = Some t -> t < deadline ->
  outcome up = Rejected e \/
  (exists r, outcome up = Resolved r /\ ok r = true /\
             includes "application/json" (contentTypeOf r) = true /\
             json r = inl e) ->
  let o := fst (handler req up k) in
  aborted o = false /\
  code o = (if (name e =? "AbortError")%string then 504 else 500) /\
  exists b, body o = Some b /\
    Get b "error" = JStr (if (name e =? "AbortError")%string
                          then "Upstream timeout" else "Service unavailable").
Proof.
  intros Hg Hs Hlt Hcase.
  rewrite (handler_GET _ _ _ Hg), (fetch_in_time _ _ Hs Hlt). cbv zeta.
  destruct Hcase as [-> | (r & -> & Hok & Hct & Hj)];
    [|rewrite Hok, Hct, Hj; cbn [negb orb]];
    cbn [fst]; onError_split; rewrite Hn;
    (split; [reflexivity|]); (split; [reflexivity|]);
    eexists; (split; [reflexivity|]); reflexivity.
Qed.

(** The excerpt of a blocked reply that is logged is the first 200
    characters of its text, or all of it when it is shorter. *)
Theorem blockedLine_snippet (r : Response) :
  exists head snippet,
    blockedLine r = [JStr head; JStr snippet] /\
    snippet = substring0 200 (text r) /\
    (String.length snippet <= 200)%nat /\
    String.prefix snippet (text r) = true.
Proof.
  unfold blockedLine. eexists _, _. split; [reflexivity|].
  rewrite substring0_substring0 by lia.
  split; [reflexivity|].
  split; [apply substring0_length | apply substring0_prefix].
Qed.

(** A GET that is answered 200 logs nothing; a GET that is answered
    anything else logs exactly one line. *)
Theorem handler_log (req : Request) (up : Upstream) (k : nat) :
  method req = "GET" ->
  let o := fst (handler req up k) in
  (code o = 200 -> log o = []) /\
  (code o <> 200 -> List.length (log o) = 1%nat).
Proof.
  intros Hg. cbv zeta.
  destruct (handler_GET_paths req up k Hg) as (url & Hp).
  destruct Hp as [(e & ab & _ & ->) |
                 [(r & _ & _ & _ & ->) |
                 [(r & e & _ & _ & ->) |
                 [(r & d & msg & rest & k2 & _ & _ & _ & _ & _ &
                   [[_ ->] | [_ [keys ->]]]) |
                  (r & d & arts & k2 & _ & _ & _ & _ & ->)]]]];
    cbn [fst]; try onError_split; cbn [code log List.length];
    split; intros H; try reflexivity; try discriminate; try contradiction;
    try assumption.
Qed.

(** *** The revision with [imageUrl] *)

(** This normalizer returns on every input too, with one of three shapes:
    the articles with [lastUpdated], the types of the upstream nodes, or
    the parsing error with a sample of the payload of at most 200
    characters. *)
Lemma transformSvelteKitData_result (data : JsVal) (k : nat) :
  exists cleaned k',
    transformSvelteKitData data k = (inr cleaned, k') /\
    ((exists iso articles,
        cleaned = JObj [("lastUpdated", JStr iso);
                        ("articles", JArr articles)]) \/
     (exists nodes, cleaned = JObj [("raw_nodes", nodes)]) \/
     (exists sample,
        cleaned = JObj [("error", JStr "Data parsing failed");
                        ("raw_sample", JStr sample)] /\
        (String.length sample <= 200)%nat)).
Proof.
  assert (String.length (substring0 200 (JSON_stringify data)) <= 200)%nat
    as Hl by apply substring0_length.
  destruct (articlesNode data) as [| | | | |node|] eqn:E.
  6: { rewrite (transformSvelteKitData_array _ _ _ E).
       destruct (mapM svelteArticle node (S k)) as [[e|mapped] j].
       - eexists _, _. split; [reflexivity|]. right. right.
         eexists. split; [reflexivity | exact Hl].
       - eexists _, _. split; [reflexivity|]. left. eauto. }
  all: unfold transformSvelteKitData, try_catch, bind; rewrite E;
    unfold rawNodes;
    destruct (isNullish data);
    [ eexists _, _; (split; [reflexivity|]); right; right;
      eexists; (split; [reflexivity | exact Hl])
    | destruct (Get data "nodes");
      eexists _, _; (split; [reflexivity|]); right;
      first [ left; eexists; reflexivity
            | right; eexists; (split; [reflexivity | exact Hl]) ] ].
Qed.

(** The sibling normalizer never throws either; it returns the articles
    with [lastUpdated], or the types of the upstream nodes, or its parsing
    error with a sample of the payload of at most 200 characters. *)
Theorem transformSvelteKitData_shapes (data : JsVal) (k : nat) :
  exists cleaned k',
    transformSvelteKitData data k = (inr cleaned, k') /\
    ((exists iso articles,
        cleaned = JObj [("lastUpdated", JStr iso);
                        ("articles", JArr articles)]) \/
     (exists nodes, cleaned = JObj [("raw_nodes", nodes)]) \/
     (exists sample,
        cleaned = JObj [("error", JStr "Data parsing failed");
                        ("raw_sample", JStr sample)] /\
        (String.length sample <= 200)%nat)).
Proof. exact (transformSvelteKitData_result data k). Qed.

Lemma svelteArticle_typed (item : JsVal) (k : nat) :
  svelteTyped item = true ->
  exists id k',
    svelteArticle item k =
    (inr (JObj [("id", id);
                ("title", JS.or (GetOpt item "title") (JStr ""));
                ("summary", JS.or (JS.or (GetOpt item "summary")
                                         (GetOpt item "description"))
                                  (JStr ""));
                ("url", match Get item "url" with
                        | JStr u => if (u =? "")%string then JStr ""
                                    else JStr (origin ++ u)
                        | _ => JStr ""
                        end);
                ("source", JStr "StockAnalysis");
                ("publishedAt", JS.or (JS.or (GetOpt item "date")
                                             (GetOpt item "time")) JNull);
                ("imageUrl", match Get item "image" with
                             | JStr p => if (p =? "")%string then JNull
                                         else JStr (origin ++ p)
                             | _ => JNull
                             end)]), k').
Proof.
  unfold svelteTyped. intros H.
  apply andb_true_iff in H as [H Hi]. apply andb_true_iff in H as [Hu Hid].
  assert (forall x other j,
            negb (ToBoolean (Get item x)) || isString (Get item x) = true ->
            svelteAbsolute item x other j =
            (inr match Get item x with
                 | JStr p => if (p =? "")%string then other
                             else JStr (origin ++ p)
                 | _ => other
                 end, j)) as Habs.
  { intros x other j Hx. unfold svelteAbsolute, bind. rewrite GetOpt_Get.
    destruct (Get item x) as [| |b|z|p| |]; cbn in Hx |- *;
      try discriminate; try reflexivity.
    - destruct b; [discriminate | reflexivity].
    - destruct (z =? 0); [reflexivity | discriminate].
    - destruct (p =? "")%string; reflexivity. }
  assert (exists id k', svelteId item k = (inr id, k')) as (id & k' & Eid).
  { unfold svelteId, bind. rewrite !GetOpt_Get.
    destruct (ToBoolean (Get item "id")); [eexists _, _; reflexivity|].
    rewrite orb_false_r in Hid.
    destruct (Get item "url") as [| | | |u| |]; try discriminate;
      cbn [ret ToBoolean]; try (eexists _, _; reflexivity).
    destruct (negb (pop (split "/" u) =? "")%string);
      eexists _, _; reflexivity. }
  exists id, k'. unfold svelteArticle, bind.
  rewrite Eid, (Habs _ _ _ Hu), (Habs _ _ _ Hi). reflexivity.
Qed.

(** On a payload whose entries are all well typed this normalizer succeeds,
    and an entry is emitted exactly when its raw title and its raw URL path
    are both truthy; the title is emitted as it is, not trimmed. *)
Theorem transformSvelteKitData_complete (data : JsVal) (node : list JsVal)
    (k : nat) :
  articlesNode data = JArr node ->
  forallb svelteTyped node = true ->
  exists mapped k',
    transformSvelteKitData data k =
    (inr (JObj [("lastUpdated", JStr (toISOString (clock k)));
                ("articles", JArr (filter svelteKeeps mapped))]), k') /\
    Forall2 (fun item a =>
       Get a "title" = JS.or (Get item "title") (JStr "") /\
       (svelteKeeps a = true <->
        ToBoolean (Get item "title") = true /\
        ToBoolean (Get item "url") = true))
      node mapped.
Proof.
  intros E Hw. rewrite forallb_forall in Hw.
  destruct (mapM_succeeds svelteArticle node) with (k := S k)
    as (mapped & k' & Em & _).
  { apply Forall_forall. intros x Hx j.
    destruct (svelteArticle_typed x j (Hw x Hx)) as (id & j' & ->). eauto. }
  exists mapped, k'. rewrite (transformSvelteKitData_array _ _ _ E), Em.
  split; [reflexivity|].
  apply mapM_inv in Em.
  assert (Forall (fun x => svelteTyped x = true) node) as Hall
    by (apply Forall_forall; auto).
  apply (Forall2_left _ _ _ _ Hall) in Em. revert Em. apply Forall2_impl.
  intros item a (Ht & k1 & k2 & Hx).
  destruct (svelteArticle_typed item k1 Ht) as (id & j' & Hy).
  rewrite Hy in Hx. injection Hx as <- _.
  unfold svelteKeeps, JS.and. rewrite !GetOpt_Get.
  cbn [Get lookup String.eqb Ascii.eqb Bool.eqb].
  split; [reflexivity|].
  unfold JS.or. destruct (ToBoolean (Get item "title")) eqn:Et;
    [rewrite Et | cbn [ToBoolean String.eqb negb]];
    [|split; [discriminate | intros [? _]; discriminate]].
  unfold svelteTyped in Ht.
  apply andb_true_iff in Ht as [Ht _]. apply andb_true_iff in Ht as [Hu _].
  destruct (Get item "url") as [| |b|z|u| |]; cbn in Hu |- *;
    try (split; [discriminate | intros [_ ?]; discriminate]);
    try discriminate.
  - destruct b; [discriminate|].
    split; [discriminate | intros [_ ?]; discriminate].
  - destruct (z =? 0); [|discriminate].
    cbn. split; [discriminate | intros [_ ?]; discriminate].
  - destruct (u =? "")%string; cbn;
      [split; [discriminate | intros [_ ?]; discriminate] | tauto].
Qed.

(** The answers of this handler to a GET, path by path. *)
Lemma svelteHandler_GET (req : Request) (requestUrl : string)
    (settled : Settled) (k : nat) :
  method req = "GET" ->
  svelteHandler req requestUrl settled k =
  let url :=
    "https://stockanalysis.com/news/__data.json?x-sveltekit-trailing-slash=1&x-sveltekit-invalidated="
    ++ Number_toString (clock k) in
  match settled with
  | Rejected error => (svelteOnError requestUrl url error, S k)
  | Resolved response =>
      if negb (ok response) then
        match text_error response with
        | Some error => (svelteOnError requestUrl url error, S k)
        | None =>
            (mkOutcome svelteHeaders 502
               (Some (JObj
                  [("error", JStr "Upstream service unavailable");
                   ("message",
                    JStr "Failed to retrieve news data. Please try again later.")]))
               [[JStr ("[STOCKANALYSIS FETCH FAILED] Status: "
                       ++ Number_toString (status response) ++ " | URL: "
                       ++ url ++ " | Preview: "
                       ++ substring0 300 (text response))]]
               (Some url) false, S k)
        end
      else
        match json response with
        | inl error => (svelteOnError requestUrl url error, S k)
        | inr rawData =>
            match transformSvelteKitData rawData (S k) with
            | (inl error, k2) => (svelteOnError requestUrl url error, k2)
            | (inr cleanedData, k2) =>
                (mkOutcome (svelteHeaders ++ [jsonContentType]) 200
                   (Some (wire cleanedData)) (svelteConsole rawData (S k))
                   (Some url) false, k2)
            end
        end
  end.
Proof.
  intros Hm. unfold svelteHandler. rewrite Hm.
  change ("GET" =? "OPTIONS")%string with false.
  change ("GET" =? "GET")%string with true.
  reflexivity.
Qed.

(** What [transformSvelteKitData] writes to the console: nothing exactly
    when it returns the articles; the warning of the fall-back when the
    article list is not an array; one error line more when it returns its
    parsing error. *)
Lemma svelteConsole_result (data : JsVal) (k : nat) :
  exists cleaned k',
    transformSvelteKitData data k = (inr cleaned, k') /\
    ((exists iso articles,
        cleaned = JObj [("lastUpdated", JStr iso);
                        ("articles", JArr articles)] /\
        svelteConsole data k = []) \/
     (exists nodes,
        cleaned = JObj [("raw_nodes", nodes)] /\
        svelteConsole data k =
        [[JStr "Unexpected data structure - falling back to raw nodes"]]) \/
     (exists sample e,
        cleaned = JObj [("error", JStr "Data parsing failed");
                        ("raw_sample", JStr sample)] /\
        (svelteConsole data k = [svelteFailureLine e] \/
         svelteConsole data k =
         [[JStr "Unexpected data structure - falling back to raw nodes"];
          svelteFailureLine e]))).
Proof.
  unfold svelteConsole.
  destruct (articlesNode data) as [| | | | |node|] eqn:E.
  6: { rewrite (transformSvelteKitData_array _ _ _ E).
       destruct (mapM svelteArticle node (S k)) as [[e|mapped] j].
       - eexists _, _. split; [reflexivity|]. right. right.
         eexists _, e. split; [reflexivity|]. left. reflexivity.
       - eexists _, _. split; [reflexivity|]. left.
         eexists _, _. split; reflexivity. }
  all: unfold transformSvelteKitData, try_catch, bind; rewrite E;
    destruct (rawNodes data k) as [[e|nodes] j];
    eexists _, _; (split; [reflexivity|]); right;
    [ right; eexists _, e; (split; [reflexivity|]); right; reflexivity
    | left; eexists; split; reflexivity ].
Qed.

(** This handler answers 200 to every 2xx reply that parses, whatever its
    structure: the normalizer's result is sent as it is, labelled as JSON,
    and the handler itself logs nothing, so that the console holds the
    lines of the normalizer: none exactly when articles are returned.  For
    a payload without [nodes] the body is the empty object and the console
    holds the warning of the fall-back. *)
Theorem svelteHandler_ok_200 (req : Request) (requestUrl : string)
    (r : Response) (rawData : JsVal) (k : nat) :
  method req = "GET" ->
  ok r = true ->
  json r = inr rawData ->
  let o := fst (svelteHandler req requestUrl (Resolved r) k) in
  code o = 200 /\
  headers o = (svelteHeaders ++ [jsonContentType])%list /\
  log o = svelteConsole rawData (S k) /\
  (exists cleaned k',
     transformSvelteKitData rawData (S k) = (inr cleaned, k') /\
     body o = Some (wire cleaned) /\
     (log o = [] <-> exists articles, Get cleaned "articles" = JArr articles))
  /\
  (isNullish rawData = false -> isNullish (Get rawData "nodes") = true ->
   body o = Some (JObj []) /\
   log o = [[JStr "Unexpected data structure - falling back to raw nodes"]]).
Proof.
  intros Hg Hok Hj. rewrite (svelteHandler_GET _ _ _ _ Hg). cbv zeta.
  rewrite Hok, Hj. cbn [negb].
  destruct (svelteConsole_result rawData (S k))
    as (cleaned & k' & Et & Hshape).
  rewrite Et. cbn [fst code log headers body].
  split; [reflexivity|]. split; [reflexivity|]. split; [reflexivity|].
  split.
  - exists cleaned, k'. split; [reflexivity|]. split; [reflexivity|].
    destruct Hshape as [(iso & arts & -> & ->) |
                       [(nodes & -> & ->) |
                        (sample & e & -> & [-> | ->])]].
    + split; [intros _; eexists; reflexivity | intros _; reflexivity].
    + split; [discriminate | intros [a Ha]; discriminate].
    + split; [discriminate | intros [a Ha]; discriminate].
    + split; [discriminate | intros [a Ha]; discriminate].
  - intros Hnn Hnodes.
    unfold svelteConsole.
    unfold transformSvelteKitData, try_catch, bind in Et.
    unfold articlesNode, rawNodes in *.
    rewrite !GetOpt_Get in *. rewrite Hnn in *.
    destruct (Get rawData "nodes"); try discriminate;
      cbn in Et |- *; injection Et as <- _; split; reflexivity.
Qed.

(** In any mode a failure is answered by this handler with one of three
    fixed bodies. *)
Theorem svelteHandler_fixed_errors (req : Request) (requestUrl : string)
    (settled : Settled) (k : nat) :
  let o := fst (svelteHandler req requestUrl settled k) in
  code o <> 200 ->
  In (code o, body o)
     [(405, Some (JObj
         [("error",
           JStr "Method not allowed. Only GET requests permitted.")]));
      (502, Some (JObj
         [("error", JStr "Upstream service unavailable");
          ("message",
           JStr "Failed to retrieve news data. Please try again later.")]));
      (500, Some (JObj
         [("error", JStr "Internal service error");
          ("message", JStr "News service temporarily unavailable")]))].
Proof.
  cbv zeta.
  destruct (String.eqb_spec (method req) "GET") as [Hg | Hg].
  - rewrite (svelteHandler_GET _ _ _ _ Hg). cbv zeta.
    destruct settled as [e|r]; [cbn; tauto|].
    destruct (negb (ok r)); [destruct (text_error r); cbn; tauto|].
    destruct (json r) as [e|rawData]; [cbn; tauto|].
    destruct (transformSvelteKitData_result rawData (S k))
      as (cleaned & k' & -> & _).
    cbn [fst code]. intros H. contradiction.
  - unfold svelteHandler.
    destruct (method req =? "OPTIONS")%string;
      [cbn [fst code]; intros H; contradiction|].
    destruct (String.eqb_spec (method req) "GET") as [E | _];
      [contradiction|]. cbn. tauto.
Qed.

(** *** The pass-through revision *)

Lemma wire_JSON : forall v, isJSON v = true -> wire v = v.
Proof.
  fix IH 1. intros [| | | | | l | ps] H; try reflexivity.
  - cbn [wire]. f_equal. cbn [isJSON] in H.
    induction l as [|x l IHl]; [reflexivity|].
    cbn [forallb map] in *. apply andb_true_iff in H as [Hx Hl].
    rewrite (IHl Hl). f_equal.
    pose proof (IH x Hx) as Hw.
    destruct x; try exact Hw. discriminate.
  - cbn [wire]. f_equal. cbn [isJSON] in H.
    induction ps as [|[n x] ps IHps]; [reflexivity|].
    cbn [forallb snd] in *. apply andb_true_iff in H as [Hx Hps].
    rewrite (IHps Hps).
    pose proof (IH x Hx) as Hw.
    destruct x; try (f_equal; f_equal; exact Hw). discriminate.
Qed.

(** The pass-through handler answers 200 exactly to a GET whose upstream
    reply is 2xx and parses; an OPTIONS is refused like any other
    method. *)
Theorem passThroughHandler_200_iff (req : Request) (statusText : string)
    (settled : Settled) :
  code (passThroughHandler req statusText settled) = 200 <->
  method req = "GET" /\
  exists r data, settled = Resolved r /\ ok r = true /\ json r = inr data.
Proof.
  unfold passThroughHandler.
  destruct (String.eqb_spec (method req) "GET") as [Hg | Hg]; cbn [negb].
  - destruct settled as [e|r].
    + split; [discriminate|]. intros (_ & r & d & H & _). discriminate.
    + destruct (ok r) eqn:Hok; cbn [negb].
      * destruct (json r) as [e|d] eqn:Hj.
        -- split; [discriminate|]. intros (_ & r' & d & H & _ & Hj').
           injection H as <-. congruence.
        -- split; [|reflexivity]. intros _. split; [exact Hg|]. eauto.
      * split; [discriminate|]. intros (_ & r' & d & H & Hok' & _).
        injection H as <-. congruence.
  - split; [discriminate|]. intros [H _]. contradiction.
Qed.

(** On that path the client receives the upstream document unchanged,
    labelled as JSON. *)
Theorem passThroughHandler_body (req : Request) (statusText : string)
    (r : Response) (data : JsVal) :
  method req = "GET" -> ok r = true -> json r = inr data ->
  isJSON data = true ->
  let o := passThroughHandler req statusText (Resolved r) in
  body o = Some data /\ code o = 200 /\
  headers o = (passThroughHeaders ++ [jsonContentType])%list /\ log o = [].
Proof.
  intros Hg Hok Hj HJ. unfold passThroughHandler.
  rewrite Hg, Hok, Hj. cbn. rewrite (wire_JSON _ HJ). repeat split.
Qed.

(** Unlike the later revisions, the pass-through handler tells the client
    what went wrong: the message of whatever was thrown, and the status of
    a reply that is not 2xx together with the URL fetched. *)
Theorem passThroughHandler_failures (req : Request) (statusText : string)
    (settled : Settled) :
  method req = "GET" ->
  let o := passThroughHandler req statusText settled in
  (forall e,
     settled = Rejected e \/
     (exists r, settled = Resolved r /\ ok r = true /\ json r = inl e) ->
     code o = 500 /\
     body o = Some (JObj [("error", JStr "Internal server error");
                          ("message", JStr (message e))])) /\
  (forall r,
     settled = Resolved r -> ok r = false ->
     code o = 502 /\
     body o = Some (JObj [("error",
                           JStr "Failed to fetch from stockanalysis API");
                          ("status", JNum (status r));
                          ("url", JStr passThroughUrl)])).
Proof.
  intros Hg. cbv zeta. unfold passThroughHandler. rewrite Hg. cbn [negb].
  change ("GET" =? "GET")%string with true. cbn [negb].
  split.
  - intros e [-> | (r & -> & Hok & Hj)]; [|rewrite Hok, Hj]; split; reflexivity.
  - intros r -> Hok. rewrite Hok. split; reflexivity.
Qed.

End Program.

(* ================================================================= *)
(** ** The properties at sample inputs *)

Import JS.

Local Notation "'normalize'" :=
  (transformNewsData Sample.noNumber Sample.noPrimitive Sample.clock).
Local Notation "'mapEntry'" :=
  (mapArticle Sample.noNumber Sample.noPrimitive Sample.clock).
Local Notation "'serve'" :=
  (handler Sample.noNumber Sample.noPrimitive Sample.clock).
Local Notation "'normalizeSvelte'" :=
  (transformSvelteKitData Sample.clock Sample.draw Sample.noString
     Sample.noExponent Sample.noJSON).

(** C1 at the payload holding the sample entry. *)
Lemma C1_emitted_articles_witness :
  normalize (Sample.payload [Sample.entry]) 0%nat
  = (inr Sample.cleaned, 1%nat) /\
  Forall2 (fun item a =>
     exists t u,
       Get item "t" = JStr t /\ t <> "" /\
       Get item "u" = JStr u /\ u <> "" /\
       Get a "url" = JStr (origin ++ u) /\
       trim (origin ++ u) <> "" /\
       (allWhiteSpace t = false ->
        Get a "title" = JStr (trim t) /\ trim t <> ""))
    (filter keeps [Sample.entry]) [Sample.article] /\
  (forall item, In item [Sample.entry] ->
     ToBoolean item = false \/ ToBoolean (Get item "t") = false
     \/ ToBoolean (Get item "u") = false ->
     ~ In item (filter keeps [Sample.entry])).
Proof.
  split; [vm_compute; reflexivity|].
  apply (C1_emitted_articles Sample.noNumber Sample.noPrimitive Sample.clock
           (Sample.payload [Sample.entry]) [Sample.entry] 0 Sample.cleaned 1
           [Sample.article]).
  - reflexivity.
  - vm_compute; reflexivity.
  - reflexivity.
Defined.

(** C1 fails as stated.  A URL path made of white space is empty after
    trimming; the filter tests it as it is, and its entry is kept and
    emitted. *)
Lemma C1_counterexample :
  trim "   " = "" /\
  normalize (Sample.payload [JObj [("t", JStr "Title"); ("u", JStr "   ")]])
    0%nat
  = (inr (JObj
       [("success", JBool true);
        ("count", JNum 1);
        ("lastUpdated", JStr "2023-11-14T22:13:20.000Z");
        ("articles", JArr
           [JObj [("id", JStr "   ");
                  ("title", JStr "Title");
                  ("summary", JStr "");
                  ("url", JStr "https://stockanalysis.com   ");
                  ("publishedAt", JNull);
                  ("source", JStr "StockAnalysis")]])]), 1%nat).
Proof. split; vm_compute; reflexivity. Qed.

(** The title is tested before it is trimmed as well: one made of white
    space passes the filter and its Article has an empty [title]. *)
Example blank_title_emitted :
  mapEntry (JObj [("t", JStr "   "); ("u", JStr "/news/abc-123")]) 0%nat
  = (inr (JObj [("id", JStr "abc-123");
                ("title", JStr "");
                ("summary", JStr "");
                ("url", JStr "https://stockanalysis.com/news/abc-123");
                ("publishedAt", JNull);
                ("source", JStr "StockAnalysis")]), 0%nat) /\
  keeps (JObj [("t", JStr "   "); ("u", JStr "/news/abc-123")]) = true.
Proof. split; vm_compute; reflexivity. Qed.

(** C2 at the sample entry followed by [null], which the filter drops. *)
Lemma C2_entry_isolation_witness :
  keeps JNull = false /\
  normalize (Sample.payload ([Sample.entry] ++ JNull :: [])) 0%nat
  = normalize (Sample.payload ([Sample.entry] ++ [])) 0%nat.
Proof.
  split; [reflexivity|].
  apply (C2_entry_isolation Sample.noNumber Sample.noPrimitive Sample.clock
           (Sample.payload ([Sample.entry] ++ JNull :: []))
           (Sample.payload ([Sample.entry] ++ []))
           [Sample.entry] [] JNull 0); reflexivity.
Defined.

(** C2 fails as stated.  An entry whose URL field is the number 5 passes
    the filter, [item.u.split] throws on it, and the sample entry before it
    is lost with the whole batch; without that entry the sample entry is
    emitted. *)
Lemma C2_counterexample :
  normalize (Sample.payload
     [Sample.entry; JObj [("t", JStr "Other"); ("u", JNum 5)]]) 0%nat
  = (inr (JObj [("error", JStr "item.u.split is not a function")]), 0%nat) /\
  normalize (Sample.payload [Sample.entry]) 0%nat
  = (inr Sample.cleaned, 1%nat).
Proof. split; vm_compute; reflexivity. Qed.

(** C3 at the payload holding the sample entry. *)
Lemma C3_publishedAt_witness :
  normalize (Sample.payload [Sample.entry]) 0%nat
  = (inr Sample.cleaned, 1%nat) /\
  (forall articles, Get Sample.cleaned "articles" = JArr articles ->
     Forall2 (fun item a =>
        (isNullish (Get item "d") = true -> Get a "publishedAt" = JNull) /\
        (forall z, Get item "d" = JNum z ->
           Get a "publishedAt" =
             (if z =? 0 then JNull else JStr (toISOString (z * 1000))) /\
           (z <> 0 -> Z.abs (z * 1000) <= maxTime)))
       (filter keeps [Sample.entry]) articles) /\
  (forall item z,
     In item [Sample.entry] -> keeps item = true -> Get item "d" = JNum z ->
     maxTime < Z.abs (z * 1000) ->
     Get Sample.cleaned "articles" = JUndefined /\
     ToBoolean (Get Sample.cleaned "error") = true).
Proof.
  split; [vm_compute; reflexivity|].
  apply (C3_publishedAt Sample.noNumber Sample.noPrimitive Sample.clock
           (Sample.payload [Sample.entry]) [Sample.entry] 0 Sample.cleaned 1).
  - reflexivity.
  - vm_compute; reflexivity.
Defined.

(** C3 fails as stated.  A date of 10^13 seconds is beyond the last time
    value: [toISOString] throws, the sample entry before it is lost with the
    batch, and the handler answers 500.  A date of zero seconds is present
    and numeric, and gives [null]. *)
Lemma C3_counterexample :
  normalize (Sample.payload
     [Sample.entry;
      JObj [("t", JStr "Late"); ("u", JStr "/news/late");
            ("d", JNum 10000000000000)]]) 0%nat
  = (inr (JObj [("error", JStr "Invalid time value")]), 0%nat) /\
  (let o := fst (serve None Sample.get
                   (Sample.reply 200 "application/json"
                      (Sample.payload
                         [Sample.entry;
                          JObj [("t", JStr "Late"); ("u", JStr "/news/late");
                                ("d", JNum 10000000000000)]])) 0%nat) in
   code o = 500 /\
   body o = Some (JObj [("error", JStr "Data structure changed");
                        ("hint", JStr "Check transformation logic")])) /\
  mapEntry (JObj [("t", JStr "Epoch"); ("u", JStr "/news/epoch");
                  ("d", JNum 0)]) 0%nat
  = (inr (JObj [("id", JStr "epoch");
                ("title", JStr "Epoch");
                ("summary", JStr "");
                ("url", JStr "https://stockanalysis.com/news/epoch");
                ("publishedAt", JNull);
                ("source", JStr "StockAnalysis")]), 0%nat).
Proof. repeat split; vm_compute; reflexivity. Qed.

(** C4 at an upstream whose headers arrive after nine seconds, and at one
    whose reply arrives after 120 ms with its body 30 ms later. *)
Lemma C4_upstream_timeout_witness :
  let late := mkUpstream (Some 9000)
                (Resolved (mkResponse 200 (Some "application/json") ""
                             (inr (Sample.payload [Sample.entry]))
                             None (Some 30))) in
  let timely := Sample.reply 200 "application/json"
                  (Sample.payload [Sample.entry]) in
  (aborted (fst (serve None Sample.get late 0%nat)) = true /\
   code (fst (serve None Sample.get late 0%nat)) = 504 /\
   body (fst (serve None Sample.get late 0%nat))
   = Some (JObj [("error", JStr "Upstream timeout")]) /\
   answeredAfter Sample.get late = Some deadline) /\
  (aborted (fst (serve None Sample.get timely 0%nat)) = false /\
   answeredAfter Sample.get timely = Some 150 /\
   code (fst (serve None Sample.get timely 0%nat)) <> 504).
Proof.
  cbv zeta. split.
  - apply (C4_upstream_timeout Sample.noNumber Sample.noPrimitive Sample.clock
             None Sample.get
             (mkUpstream (Some 9000)
                (Resolved (mkResponse 200 (Some "application/json") ""
                             (inr (Sample.payload [Sample.entry]))
                             None (Some 30))))
             0 eq_refl).
    intros t H. injection H as <-. unfold deadline. lia.
  - destruct (proj2 (C4_upstream_timeout Sample.noNumber Sample.noPrimitive
                       Sample.clock None Sample.get
                       (Sample.reply 200 "application/json"
                          (Sample.payload [Sample.entry]))
                       0 eq_refl)
                120
                (mkResponse 200 (Some "application/json") ""
                   (inr (Sample.payload [Sample.entry])) None (Some 30))
                eq_refl eq_refl eq_refl) as (Ha & Hw & _).
    split; [exact Ha|]. split; [exact Hw|].
    vm_compute. discriminate.
Defined.

(** C4 fails as stated.  The headers of the reply arrive after 100 ms and
    its body 20 seconds later: the upstream call is not complete within 8
    seconds, yet no abort runs and the answer, sent after 20.1 seconds, is
    the 200.  When the body never arrives, no answer is ever sent. *)
Lemma C4_counterexample :
  let late := mkUpstream (Some 100)
                (Resolved (mkResponse 200 (Some "application/json") ""
                             (inr (Sample.payload [Sample.entry]))
                             None (Some 20000))) in
  let never := mkUpstream (Some 100)
                 (Resolved (mkResponse 200 (Some "application/json") ""
                              (inr (Sample.payload [Sample.entry]))
                              None None)) in
  answeredAfter Sample.get late = Some 20100 /\
  aborted (fst (serve None Sample.get late 0%nat)) = false /\
  code (fst (serve None Sample.get late 0%nat)) = 200 /\
  answeredAfter Sample.get never = None /\
  aborted (fst (serve None Sample.get never 0%nat)) = false.
Proof. cbv zeta. repeat split; vm_compute; reflexivity. Qed.

(** C5 at a 403 reply carrying an HTML page, once with its text read and
    once with the reading reset by the peer. *)
Lemma C5_blocked_reply_witness :
  let page := "<!DOCTYPE html><title>Just a moment...</title>" in
  let unexpected := mkExn "SyntaxError" "Unexpected token '<'" None in
  let reset := mkExn "TypeError" "terminated" None in
  let read := mkUpstream (Some 120)
                (Resolved (mkResponse 403 (Some "text/html; charset=UTF-8")
                             page (inl unexpected) None (Some 30))) in
  let unread := mkUpstream (Some 120)
                  (Resolved (mkResponse 403 (Some "text/html; charset=UTF-8")
                               page (inl unexpected) (Some reset) (Some 30))) in
  (code (fst (serve None Sample.get read 0%nat)) = 502 /\
   body (fst (serve None Sample.get read 0%nat)) = Some (JObj
     [("error", JStr "Source blocked request");
      ("hint", JStr "Check Vercel logs for Cloudflare/challenge details")]) /\
   (forall b, body (fst (serve None Sample.get read 0%nat)) = Some b ->
      Get b "error" = JStr "Source blocked request" /\
      Get b "hint" <> JUndefined /\
      Get b "articles" = JUndefined)) /\
  (code (fst (serve None Sample.get unread 0%nat)) = 500 /\
   exists b, body (fst (serve None Sample.get unread 0%nat)) = Some b /\
     Get b "error" = JStr "Service unavailable" /\
     Get b "articles" = JUndefined) /\
  answeredAfter Sample.get read = Some 150.
Proof.
  cbv zeta. split; [|split].
  - apply (C5_blocked_reply Sample.noNumber Sample.noPrimitive Sample.clock
             None Sample.get
             (mkUpstream (Some 120)
                (Resolved
                   (mkResponse 403 (Some "text/html; charset=UTF-8")
                      "<!DOCTYPE html><title>Just a moment...</title>"
                      (inl (mkExn "SyntaxError" "Unexpected token '<'" None))
                      None (Some 30))))
             (mkResponse 403 (Some "text/html; charset=UTF-8")
                "<!DOCTYPE html><title>Just a moment...</title>"
                (inl (mkExn "SyntaxError" "Unexpected token '<'" None))
                None (Some 30))
             120 0 eq_refl eq_refl eq_refl eq_refl (or_introl eq_refl)).
    reflexivity.
  - apply (proj1 (proj2
             (C5_blocked_reply Sample.noNumber Sample.noPrimitive Sample.clock
                None Sample.get
                (mkUpstream (Some 120)
                   (Resolved
                      (mkResponse 403 (Some "text/html; charset=UTF-8")
                         "<!DOCTYPE html><title>Just a moment...</title>"
                         (inl (mkExn "SyntaxError" "Unexpected token '<'" None))
                         (Some (mkExn "TypeError" "terminated" None))
                         (Some 30))))
                (mkResponse 403 (Some "text/html; charset=UTF-8")
                   "<!DOCTYPE html><title>Just a moment...</title>"
                   (inl (mkExn "SyntaxError" "Unexpected token '<'" None))
                   (Some (mkExn "TypeError" "terminated" None)) (Some 30))
                120 0 eq_refl eq_refl eq_refl eq_refl (or_introl eq_refl)))
             (mkExn "TypeError" "terminated" None) eq_refl).
  - apply (C5_blocked_reply Sample.noNumber Sample.noPrimitive Sample.clock
             None Sample.get
             (mkUpstream (Some 120)
                (Resolved
                   (mkResponse 403 (Some "text/html; charset=UTF-8")
                      "<!DOCTYPE html><title>Just a moment...</title>"
                      (inl (mkExn "SyntaxError" "Unexpected token '<'" None))
                      None (Some 30))))
             (mkResponse 403 (Some "text/html; charset=UTF-8")
                "<!DOCTYPE html><title>Just a moment...</title>"
                (inl (mkExn "SyntaxError" "Unexpected token '<'" None))
                None (Some 30))
             120 0 eq_refl eq_refl eq_refl eq_refl (or_introl eq_refl)).
Defined.

(** C5 fails as stated.  A 200 reply labelled [application/json-seq], a
    content type that is not JSON, passes the test of the handler, which
    looks for the text [application/json]: its body does not parse and the
    answer is 500.  A 403 HTML reply whose body cannot be read is answered
    500 as well. *)
Lemma C5_counterexample :
  let sequence :=
    mkUpstream (Some 120)
      (Resolved (mkResponse 200 (Some "application/json-seq") ""
                   (inl (mkExn "SyntaxError" "Unexpected token" None))
                   None (Some 30))) in
  let broken :=
    mkUpstream (Some 120)
      (Resolved (mkResponse 403 (Some "text/html") ""
                   (inl (mkExn "TypeError" "terminated" None))
                   (Some (mkExn "TypeError" "terminated" None))
                   (Some 30))) in
  let unavailable := Some (JObj [("error", JStr "Service unavailable")]) in
  code (fst (serve None Sample.get sequence 0%nat)) = 500 /\
  body (fst (serve None Sample.get sequence 0%nat)) = unavailable /\
  code (fst (serve None Sample.get broken 0%nat)) = 500 /\
  body (fst (serve None Sample.get broken 0%nat)) = unavailable.
Proof. cbv zeta. repeat split; vm_compute; reflexivity. Qed.

(** C8 at the payload holding the sample entry, served at two points of the
    clock. *)
Lemma C8_determinism_witness :
  let up := Sample.reply 200 "application/json"
              (Sample.payload [Sample.entry]) in
  let o1 := fst (serve None Sample.get up 0%nat) in
  let o2 := fst (serve None Sample.get up 5000%nat) in
  code o1 = code o2 /\
  option_map (without "lastUpdated") (body o1)
  = option_map (without "lastUpdated") (body o2) /\
  option_map (fun b => Get b "articles") (body o1)
  = option_map (fun b => Get b "articles") (body o2).
Proof.
  apply (C8_determinism Sample.noNumber Sample.noPrimitive Sample.clock
           None Sample.get).
  intros r rawData Hr Hj. injection Hr as <-. injection Hj as <-.
  reflexivity.
Defined.

(** C8 fails as stated.  For an entry whose URL path ends in a slash the
    identifier is the clock reading, and two invocations on the same payload
    emit different Articles. *)
Lemma C8_counterexample :
  let up := Sample.reply 200 "application/json"
              (Sample.payload
                 [JObj [("t", JStr "Title"); ("u", JStr "/news/")]]) in
  let o1 := fst (serve None Sample.get up 0%nat) in
  let o2 := fst (serve None Sample.get up 5%nat) in
  code o1 = 200 /\ code o2 = 200 /\
  option_map (fun b => Get b "articles") (body o1)
  = Some (JArr [JObj [("id", JStr "1700000000001");
                      ("title", JStr "Title");
                      ("summary", JStr "");
                      ("url", JStr "https://stockanalysis.com/news/");
                      ("publishedAt", JNull);
                      ("source", JStr "StockAnalysis")]]) /\
  option_map (fun b => Get b "articles") (body o2)
  = Some (JArr [JObj [("id", JStr "1700000000006");
                      ("title", JStr "Title");
                      ("summary", JStr "");
                      ("url", JStr "https://stockanalysis.com/news/");
                      ("publishedAt", JNull);
                      ("source", JStr "StockAnalysis")]]) /\
  option_map (fun b => Get b "articles") (body o1)
  <> option_map (fun b => Get b "articles") (body o2).
Proof.
  cbv zeta. repeat split; try (vm_compute; reflexivity).
  vm_compute. discriminate.
Qed.

(** The sibling revision draws such identifiers at random. *)
Example transformSvelteKitData_random_id :
  normalizeSvelte
    (Sample.payload [JObj [("title", JStr "Title"); ("url", JStr "/news/")]])
    0%nat
  = (inr (JObj [("lastUpdated", JStr "2023-11-14T22:13:20.000Z");
                ("articles", JArr
                   [JObj [("id", JStr "r1");
                          ("title", JStr "Title");
                          ("summary", JStr "");
                          ("url", JStr "https://stockanalysis.com/news/");
                          ("source", JStr "StockAnalysis");
                          ("publishedAt", JNull);
                          ("imageUrl", JNull)]])]), 2%nat).
Proof. vm_compute. reflexivity. Qed.

(** C9 at the sample entry for one revision, and at an entry with an image
    path for the other. *)
Lemma C9_article_fields_witness :
  let pictured :=
    JObj [("title", JStr "Title"); ("url", JStr "/news/abc-123");
          ("image", JStr "/img/abc-123.png")] in
  let emitted :=
    JObj [("id", JStr "abc-123");
          ("title", JStr "Title");
          ("summary", JStr "");
          ("url", JStr "https://stockanalysis.com/news/abc-123");
          ("source", JStr "StockAnalysis");
          ("publishedAt", JNull);
          ("imageUrl", JStr "https://stockanalysis.com/img/abc-123.png")] in
  normalizeSvelte (Sample.payload [pictured]) 0%nat
  = (inr (JObj [("lastUpdated", JStr "2023-11-14T22:13:20.000Z");
                ("articles", JArr [emitted])]), 1%nat) /\
  Forall (fun a =>
     Object_keys a
     = inr ["id"; "title"; "summary"; "url"; "publishedAt"; "source"] /\
     Get a "imageUrl" = JUndefined) [Sample.article] /\
  exists mapped,
    [emitted] = filter svelteKeeps mapped /\
    Forall2 (fun item a =>
       Object_keys a
       = inr ["id"; "title"; "summary"; "url"; "source"; "publishedAt";
              "imageUrl"] /\
       (ToBoolean (Get item "image") = false -> Get a "imageUrl" = JNull) /\
       (ToBoolean (Get item "image") = true ->
        exists s, Get a "imageUrl" = JStr (origin ++ s) /\
                  forall path, Get item "image" = JStr path -> s = path))
      [pictured] mapped.
Proof.
  cbv zeta. split; [vm_compute; reflexivity|].
  apply (C9_article_fields Sample.noNumber Sample.noPrimitive Sample.clock
           Sample.draw Sample.noString Sample.noExponent Sample.noJSON
           (Sample.payload [Sample.entry]) [Sample.entry] 0 Sample.cleaned 1
           [Sample.article]
           (Sample.payload
              [JObj [("title", JStr "Title"); ("url", JStr "/news/abc-123");
                     ("image", JStr "/img/abc-123.png")]])
           [JObj [("title", JStr "Title"); ("url", JStr "/news/abc-123");
                  ("image", JStr "/img/abc-123.png")]]
           0
           (JObj [("lastUpdated", JStr "2023-11-14T22:13:20.000Z");
                  ("articles", JArr
                     [JObj [("id", JStr "abc-123");
                            ("title", JStr "Title");
                            ("summary", JStr "");
                            ("url", JStr "https://stockanalysis.com/news/abc-123");
                            ("source", JStr "StockAnalysis");
                            ("publishedAt", JNull);
                            ("imageUrl",
                             JStr "https://stockanalysis.com/img/abc-123.png")]])])
           1).
  - reflexivity.
  - vm_compute; reflexivity.
  - reflexivity.
  - reflexivity.
  - vm_compute; reflexivity.
  - reflexivity.
Defined.

(** C9 fails as stated.  The normalizer of the handler ignores the image
    path of an entry: the Article it emits is the one it emits without the
    path, with six properties and no [imageUrl]. *)
Lemma C9_counterexample :
  normalize (Sample.payload
     [JObj [("t", JStr "Title"); ("u", JStr "/news/abc-123");
            ("d", JNum 1700000000); ("s", JStr "Summary");
            ("image", JStr "/img/abc-123.png")]]) 0%nat
  = (inr Sample.cleaned, 1%nat) /\
  Object_keys Sample.article
  = inr ["id"; "title"; "summary"; "url"; "publishedAt"; "source"] /\
  Get Sample.article "imageUrl" = JUndefined.
Proof. repeat split; vm_compute; reflexivity. Qed.

(** C10 at a 200 JSON reply whose body is [null], in production. *)
Lemma C10_null_payload_witness :
  let up := Sample.reply 200 "application/json" JNull in
  normalize JNull 1%nat =
    (inr (JObj [("error", JStr "Unexpected data structure");
                ("hasNodes", JBool false);
                ("nodeCount", JUndefined)]), 1%nat) /\
  Object_keys JNull =
    inl (TypeError "Cannot convert undefined or null to object") /\
  let o := fst (serve (Some "production") Sample.get up 0%nat) in
  code o = 500 /\
  body o = Some (JObj
    (("error", JStr "Service unavailable")
     :: if isDevelopment (Some "production")
        then [("debug", JStr "Cannot convert undefined or null to object")]
        else [])).
Proof.
  apply (C10_null_payload Sample.noNumber Sample.noPrimitive Sample.clock
           (Some "production") Sample.get _
           (mkResponse 200 (Some "application/json") "" (inr JNull) None (Some 30)) 120);
    reflexivity.
Defined.

(** C10 fails as stated.  With [NODE_ENV] set to [development] the body
    carries the message of the [TypeError] beside the error. *)
Lemma C10_counterexample :
  let o := fst (serve (Some "development") Sample.get
                  (Sample.reply 200 "application/json" JNull) 0%nat) in
  code o = 500 /\
  body o = Some (JObj
    [("error", JStr "Service unavailable");
     ("debug", JStr "Cannot convert undefined or null to object")]) /\
  body o <> Some (JObj [("error", JStr "Service unavailable")]).
Proof.
  cbv zeta. repeat split; try (vm_compute; reflexivity).
  vm_compute. discriminate.
Qed.

(* ================================================================= *)
(** ** The further properties at sample inputs *)

Local Notation "'serveSvelte'" :=
  (svelteHandler Sample.clock Sample.draw Sample.noString Sample.noExponent
     Sample.noJSON).

(** A payload whose second entry is dropped. *)
Lemma transformNewsData_complete_witness :
  exists articles k',
    normalize (Sample.payload [Sample.entry; JNull]) 0%nat =
    (inr (JObj [("success", JBool true);
                ("count",
                 JNum (Z.of_nat
                         (List.length (filter keeps [Sample.entry; JNull]))));
                ("lastUpdated", JStr (toISOString (Sample.clock k')));
                ("articles", JArr articles)]), S k') /\
    List.length articles = List.length (filter keeps [Sample.entry; JNull]) /\
    Forall2 (fun item a =>
       exists u, Get item "u" = JStr u /\ Get a "url" = JStr (origin ++ u))
      (filter keeps [Sample.entry; JNull]) articles.
Proof.
  apply (transformNewsData_complete Sample.noNumber Sample.noPrimitive
           Sample.clock (Sample.payload [Sample.entry; JNull])
           [Sample.entry; JNull] 0); reflexivity.
Defined.

(** The sample entry, whose identifier is the last segment of its path. *)
Lemma mapArticle_id_witness :
  exists u id,
    Get Sample.entry "u" = JStr u /\
    Get Sample.article "id" = JStr id /\
    Get Sample.article "url" = JStr (origin ++ u) /\
    (id <> "" /\ hasChar "/" id = false /\ 0%nat = 0%nat /\
     (exists pre, u = pre ++ id /\ (pre = "" \/ exists q, pre = q ++ "/"))
     \/
     (u = "" \/ exists q, u = q ++ "/") /\
     id = Number_toString (Sample.clock 0) /\ 0%nat = 1%nat).
Proof.
  apply (mapArticle_id Sample.noNumber Sample.noPrimitive Sample.clock
           Sample.entry 0 Sample.article 0).
  vm_compute. reflexivity.
Defined.

(** An entry whose title and summary are padded with white space. *)
Lemma mapArticle_trimmed_witness :
  let padded :=
    JObj [("t", JStr "  Title "); ("u", JStr "/news/abc-123");
          ("s", JStr " Summary  ")] in
  let emitted :=
    JObj [("id", JStr "abc-123");
          ("title", JStr "Title");
          ("summary", JStr "Summary");
          ("url", JStr "https://stockanalysis.com/news/abc-123");
          ("publishedAt", JNull);
          ("source", JStr "StockAnalysis")] in
  mapEntry padded 0%nat = (inr emitted, 0%nat) /\
  exists title summary,
    Get emitted "title" = JStr title /\ trim title = title /\
    Get emitted "summary" = JStr summary /\ trim summary = summary.
Proof.
  cbv zeta. split; [vm_compute; reflexivity|].
  apply (mapArticle_trimmed Sample.noNumber Sample.noPrimitive Sample.clock
           (JObj [("t", JStr "  Title "); ("u", JStr "/news/abc-123");
                  ("s", JStr " Summary  ")]) 0 _ 0).
  vm_compute. reflexivity.
Defined.

(** A POST, with an upstream that would answer. *)
Lemma handler_other_methods_witness :
  let req := mkRequest "POST" in
  let up := Sample.reply 200 "application/json"
              (Sample.payload [Sample.entry]) in
  let o := fst (serve None req up 0%nat) in
  snd (serve None req up 0%nat) = 0%nat /\
  fetched o = None /\ log o = [] /\ aborted o = false /\
  headers o = corsHeaders /\
  (method req = "OPTIONS" -> code o = 200 /\ body o = None) /\
  (method req <> "OPTIONS" ->
   code o = 405 /\ body o = Some (JObj [("error", JStr "Only GET allowed")])).
Proof.
  apply (handler_other_methods Sample.noNumber Sample.noPrimitive Sample.clock
           None (mkRequest "POST")).
  discriminate.
Defined.

(** A blocked reply: the error shape. *)
Lemma handler_one_shape_witness :
  let up := Sample.reply 403 "text/html" JNull in
  let b := JObj [("error", JStr "Source blocked request");
                 ("hint",
                  JStr "Check Vercel logs for Cloudflare/challenge details")] in
  code (fst (serve None Sample.get up 0%nat)) = 200 /\
  Get b "error" = JUndefined /\
  Get b "success" = JBool true /\
  (exists articles,
     Get b "articles" = JArr articles /\
     Get b "count" = JNum (Z.of_nat (List.length articles)))
  \/
  code (fst (serve None Sample.get up 0%nat)) <> 200 /\
  Get b "articles" = JUndefined /\
  Get b "success" = JUndefined /\
  exists msg, Get b "error" = JStr msg /\ msg <> "".
Proof.
  apply (handler_one_shape Sample.noNumber Sample.noPrimitive Sample.clock
           None Sample.get (Sample.reply 403 "text/html" JNull) 0).
  vm_compute. reflexivity.
Defined.

(** The sample entry served: the envelope reaches the client as it is. *)
Lemma handler_success_body_witness :
  let envelope :=
    JObj [("success", JBool true);
          ("count", JNum 1);
          ("lastUpdated", JStr "2023-11-14T22:13:20.001Z");
          ("articles", JArr [Sample.article])] in
  serve None Sample.get
    (Sample.reply 200 "application/json" (Sample.payload [Sample.entry]))
    0%nat =
  (mkOutcome corsHeaders 200 (Some envelope) []
     (Some ("https://stockanalysis.com/news/__data.json?x-sveltekit-invalidated="
            ++ Number_toString (Sample.clock 0) ++ "_"
            ++ Number_toString (Sample.clock 0)))
     false, 2%nat).
Proof.
  apply (handler_success_body Sample.noNumber Sample.noPrimitive Sample.clock
           None Sample.get _ 120
           (mkResponse 200 (Some "application/json") ""
              (inr (Sample.payload [Sample.entry])) None (Some 30))
           (Sample.payload [Sample.entry])); reflexivity.
Defined.

(** A blocked reply in production. *)
Lemma handler_production_bodies_witness :
  let up := Sample.reply 403 "text/html" JNull in
  In (body (fst (serve (Some "production") Sample.get up 0%nat)))
     [Some (JObj [("error", JStr "Only GET allowed")]);
      Some (JObj [("error", JStr "Upstream timeout")]);
      Some (JObj [("error", JStr "Source blocked request");
                  ("hint",
                   JStr "Check Vercel logs for Cloudflare/challenge details")]);
      Some (JObj [("error", JStr "Data structure changed");
                  ("hint", JStr "Check transformation logic")]);
      Some (JObj [("error", JStr "Service unavailable")])].
Proof.
  apply (handler_production_bodies Sample.noNumber Sample.noPrimitive
           Sample.clock (Some "production") Sample.draw Sample.noString
           Sample.noExponent Sample.noJSON Sample.get
           (Sample.reply 403 "text/html" JNull) 0).
  - reflexivity.
  - vm_compute. discriminate.
Defined.

(** A connection that is refused after 120 ms. *)
Lemma handler_thrown_witness :
  let e := mkExn "TypeError" "fetch failed" None in
  let up := mkUpstream (Some 120) (Rejected e) in
  let o := fst (serve None Sample.get up 0%nat) in
  aborted o = false /\
  code o = (if (name e =? "AbortError")%string then 504 else 500) /\
  exists b, body o = Some b /\
    Get b "error" = JStr (if (name e =? "AbortError")%string
                          then "Upstream timeout" else "Service unavailable").
Proof.
  apply (handler_thrown Sample.noNumber Sample.noPrimitive Sample.clock
           None Sample.get _ 120 (mkExn "TypeError" "fetch failed" None)).
  - reflexivity.
  - reflexivity.
  - reflexivity.
  - left. reflexivity.
Defined.

(** A blocked reply is logged once. *)
Lemma handler_log_witness :
  let up := Sample.reply 403 "text/html" JNull in
  let o := fst (serve None Sample.get up 0%nat) in
  (code o = 200 -> log o = []) /\
  (code o <> 200 -> List.length (log o) = 1%nat).
Proof.
  apply (handler_log Sample.noNumber Sample.noPrimitive Sample.clock None
           Sample.get).
  reflexivity.
Defined.

(** The payload [{}]. *)
Lemma handler_structure_changed_witness :
  let o := fst (serve None Sample.get
                  (Sample.reply 200 "application/json" (JObj [])) 0%nat) in
  code o = 500 /\
  body o = Some (JObj [("error", JStr "Data structure changed");
                       ("hint", JStr "Check transformation logic")]).
Proof.
  apply (handler_structure_changed Sample.noNumber Sample.noPrimitive
           Sample.clock None Sample.get _
           (mkResponse 200 (Some "application/json") "" (inr (JObj [])) None (Some 30))
           (JObj []) 120); reflexivity.
Defined.

(** An entry with a title and a path, and one without a title. *)
Lemma transformSvelteKitData_complete_witness :
  let node :=
    [JObj [("title", JStr "Title"); ("url", JStr "/news/abc-123")];
     JObj [("url", JStr "/news/untitled")]] in
  exists mapped k',
    normalizeSvelte (Sample.payload node) 0%nat =
    (inr (JObj [("lastUpdated", JStr (toISOString (Sample.clock 0)));
                ("articles", JArr (filter svelteKeeps mapped))]), k') /\
    Forall2 (fun item a =>
       Get a "title" = JS.or (Get item "title") (JStr "") /\
       (svelteKeeps a = true <->
        ToBoolean (Get item "title") = true /\
        ToBoolean (Get item "url") = true))
      node mapped.
Proof.
  apply (transformSvelteKitData_complete Sample.noNumber Sample.noPrimitive
           Sample.clock Sample.draw Sample.noString Sample.noExponent
           Sample.noJSON
           (Sample.payload
              [JObj [("title", JStr "Title"); ("url", JStr "/news/abc-123")];
               JObj [("url", JStr "/news/untitled")]])
           [JObj [("title", JStr "Title"); ("url", JStr "/news/abc-123")];
            JObj [("url", JStr "/news/untitled")]] 0); reflexivity.
Defined.


(** The payload [{}] served by the revision with [imageUrl]. *)
Lemma svelteHandler_ok_200_witness :
  let r := mkResponse 200 (Some "application/json") "{}" (inr (JObj []))
             None (Some 30) in
  let o := fst (serveSvelte Sample.get "/api/stockanews" (Resolved r) 0%nat) in
  code o = 200 /\
  headers o = (svelteHeaders ++ [jsonContentType])%list /\
  log o = svelteConsole Sample.draw Sample.noString Sample.noExponent
            (JObj []) 1%nat /\
  (exists cleaned k',
     normalizeSvelte (JObj []) 1%nat = (inr cleaned, k') /\
     body o = Some (wire cleaned) /\
     (log o = [] <-> exists articles, Get cleaned "articles" = JArr articles))
  /\
  body o = Some (JObj []) /\
  log o = [[JStr "Unexpected data structure - falling back to raw nodes"]].
Proof.
  cbv zeta.
  destruct (svelteHandler_ok_200 Sample.clock Sample.draw Sample.noString
              Sample.noExponent Sample.noJSON Sample.get "/api/stockanews"
              (mkResponse 200 (Some "application/json") "{}" (inr (JObj []))
                 None (Some 30))
              (JObj []) 0 eq_refl eq_refl eq_refl)
    as (Hc & Hh & Hl & Hb & Hn).
  split; [exact Hc|]. split; [exact Hh|]. split; [exact Hl|].
  split; [exact Hb|]. exact (Hn eq_refl eq_refl).
Defined.

(** An upstream that answers 503. *)
Lemma svelteHandler_fixed_errors_witness :
  let r := mkResponse 503 (Some "text/html") "Service Unavailable"
             (inl (mkExn "SyntaxError" "Unexpected token 'S'" None))
             None (Some 30) in
  let o := fst (serveSvelte Sample.get "/api/stockanews" (Resolved r) 0%nat) in
  In (code o, body o)
     [(405, Some (JObj
         [("error",
           JStr "Method not allowed. Only GET requests permitted.")]));
      (502, Some (JObj
         [("error", JStr "Upstream service unavailable");
          ("message",
           JStr "Failed to retrieve news data. Please try again later.")]));
      (500, Some (JObj
         [("error", JStr "Internal service error");
          ("message", JStr "News service temporarily unavailable")]))].
Proof.
  apply (svelteHandler_fixed_errors Sample.noNumber Sample.clock Sample.draw
           Sample.noString Sample.noExponent Sample.noJSON Sample.get
           "/api/stockanews"
           (Resolved (mkResponse 503 (Some "text/html") "Service Unavailable"
                        (inl (mkExn "SyntaxError" "Unexpected token 'S'"
                                None)) None (Some 30)))
           0).
  vm_compute. discriminate.
Defined.

(** The sample payload passed through. *)
Lemma passThroughHandler_body_witness :
  let data := Sample.payload [Sample.entry] in
  let r := mkResponse 200 (Some "application/json") "" (inr data)
             None (Some 30) in
  let o := passThroughHandler Sample.get "OK" (Resolved r) in
  body o = Some data /\ code o = 200 /\
  headers o = (passThroughHeaders ++ [jsonContentType])%list /\ log o = [].
Proof.
  apply (passThroughHandler_body Sample.get "OK"
           (mkResponse 200 (Some "application/json") ""
              (inr (Sample.payload [Sample.entry])) None (Some 30))
           (Sample.payload [Sample.entry])); reflexivity.
Defined.

(** A connection that is refused. *)
Lemma passThroughHandler_failures_witness :
  let settled := Rejected (mkExn "TypeError" "fetch failed" None) in
  let o := passThroughHandler Sample.get "" settled in
  (forall e,
     settled = Rejected e \/
     (exists r, settled = Resolved r /\ ok r = true /\ json r = inl e) ->
     code o = 500 /\
     body o = Some (JObj [("error", JStr "Internal server error");
                          ("message", JStr (message e))])) /\
  (forall r,
     settled = Resolved r -> ok r = false ->
     code o = 502 /\
     body o = Some (JObj [("error",
                           JStr "Failed to fetch from stockanalysis API");
                          ("status", JNum (status r));
                          ("url", JStr passThroughUrl)])).
Proof.
  apply (passThroughHandler_failures Sample.get ""
           (Rejected (mkExn "TypeError" "fetch failed" None))).
  reflexivity.
Defined.

(** A payload with a single node. *)
Lemma transformNewsData_diagnostics_witness :
  let data := JObj [("type", JStr "data"); ("nodes", JArr [JNull])] in
  exists hasNodes nodeCount,
    normalize data 0%nat =
    (inr (JObj [("error", JStr "Unexpected data structure");
                ("hasNodes", JBool hasNodes);
                ("nodeCount", nodeCount)]), 0%nat) /\
    (forall nodes, Get data "nodes" = JArr nodes ->
       hasNodes = true /\ nodeCount = JNum (Z.of_nat (List.length nodes))) /\
    (isNullish (Get data "nodes") = true ->
       hasNodes = false /\ nodeCount = JUndefined).
Proof.
  apply (transformNewsData_diagnostics Sample.noNumber Sample.noPrimitive
           Sample.clock
           (JObj [("type", JStr "data"); ("nodes", JArr [JNull])]) 0).
  reflexivity.
Defined.
